(** * Users and Tasks service: query parsing, value coercion and
      assignment synchronisation

    A shallow embedding of the route handlers of the Users/Tasks service
    (routes/_utils.js, routes/tasks.js, routes/users.js, models/task.js)
    and the properties stated about them.

    Layout:
    - [JS], [JSON], [Date]: the JavaScript values the handlers compute
      with (numbers, JSON values, dates) and the built-ins they call
      ([Number], [JSON.parse], [Date.parse], truthiness, object spread);
    - [Platform]: what the handlers take from the engine and from Mongoose
      and the sources do not fix (id validation and casting, schema
      validation, implementation-defined conversions);
    - query parsing and value coercion, as pure functions with errors;
    - the record store: two collections and the log of the operations
      issued against them, under a state-and-error monad;
    - the handlers POST /api/tasks, PUT /api/tasks/:id, PUT /api/users/:id
      and DELETE /api/users/:id, and the query that GET /api/tasks and
      GET /api/users hand to the store;
    - the handlers DELETE /api/tasks/:id and POST /api/users, in a session
      that logs their two further store calls, and the lookup that
      GET /api/tasks/:id and GET /api/users/:id hand to the store;
    - a reference [Platform] with sample data, on which the handlers run;
    - the properties. *)

From Stdlib Require Import ZArith QArith Qabs String Ascii List Bool Lia.
From stdpp Require Import gmap strings list fin_maps pretty.

Set Warnings "-register-all".

(* ===================================================================== *)
(** * JavaScript values and built-ins *)
(* ===================================================================== *)

Module JS.

(** ** Numbers

    A Number is NaN, an infinity or a finite binary64 value, kept as the
    rational it denotes.  The sign of zero is not kept: none of the code
    below can observe it ([-0 === 0], [Math.max(0, -0)] is [0],
    [new Date(-0)] has time value [0]). *)

Inductive number :=
| NaN
| Infinity (negative : bool)
| Finite (q : Q).

Definition isNaN (n : number) : bool :=
  match n with NaN => true | _ => false end.

Definition Number_isFinite (n : number) : bool :=
  match n with Finite _ => true | _ => false end.

(** [a === b] on two Numbers. *)
Definition number_eqb (a b : number) : bool :=
  match a, b with
  | Finite p, Finite q => Qeq_bool p q
  | Infinity s, Infinity t => Bool.eqb s t
  | _, _ => false
  end.

Definition Math_max (a b : number) : number :=
  match a, b with
  | NaN, _ | _, NaN => NaN
  | Infinity false, _ | _, Infinity false => Infinity false
  | Infinity true, x | x, Infinity true => x
  | Finite p, Finite q => if Qle_bool p q then Finite q else Finite p
  end.

(** Round-to-nearest-even conversion of a rational to binary64: 53
    significant bits, least exponent -1074 (subnormals), overflow to
    infinity from 2^1024 on.  The result is kept in lowest terms. *)
Definition round_binary64 (q : Q) : number :=
  let n := Z.abs (Qnum q) in
  let d := Zpos (Qden q) in
  if (n =? 0)%Z then Finite 0 else
  let e0 := (Z.log2 n - Z.log2 d)%Z in
  let reaches :=
    if (0 <=? e0)%Z then (d * 2 ^ e0 <=? n)%Z else (d <=? n * 2 ^ (- e0))%Z in
  let e := if reaches then e0 else (e0 - 1)%Z in
  let sh := Z.max (e - 52) (-1074) in
  let num := if (0 <=? sh)%Z then n else (n * 2 ^ (- sh))%Z in
  let den := if (0 <=? sh)%Z then (d * 2 ^ sh)%Z else d in
  let m := (num / den)%Z in
  let r := (num mod den)%Z in
  let m' :=
    if (2 * r <? den)%Z then m
    else if (den <? 2 * r)%Z then (m + 1)%Z
    else if Z.even m then m else (m + 1)%Z in
  let neg := (Qnum q <? 0)%Z in
  if (971 <? sh)%Z || ((sh =? 971)%Z && (2 ^ 53 <=? m')%Z) then Infinity neg
  else Finite (Qred ((if neg then -1 else 1) * (inject_Z m' * 2 ^ sh))).

(** ** Characters and digit strings

    A string is a sequence of 8-bit code units (Rocq's [string]); code
    units above 255 are outside this development. *)

Definition code (c : ascii) : N := N_of_ascii c.

Definition is_digit (c : ascii) : bool :=
  (48 <=? code c)%N && (code c <=? 57)%N.

Definition digit_val (c : ascii) : Z := (Z.of_N (code c) - 48)%Z.

Definition hex_val (c : ascii) : option Z :=
  let n := code c in
  if (48 <=? n)%N && (n <=? 57)%N then Some (Z.of_N n - 48)%Z
  else if (97 <=? n)%N && (n <=? 102)%N then Some (Z.of_N n - 87)%Z
  else if (65 <=? n)%N && (n <=? 70)%N then Some (Z.of_N n - 55)%Z
  else None.

Fixpoint take_digits (cs : list ascii) : list ascii * list ascii :=
  match cs with
  | c :: r =>
      if is_digit c then let '(ds, r') := take_digits r in (c :: ds, r')
      else ([], cs)
  | [] => ([], [])
  end.

Definition digits_val (ds : list ascii) : Z :=
  fold_left (fun acc c => (10 * acc + digit_val c)%Z) ds 0%Z.

(** All of [cs] as digits of the given radix; at least one digit. *)
Fixpoint radix_val (radix : Z) (acc : Z) (cs : list ascii) : option Z :=
  match cs with
  | [] => Some acc
  | c :: r =>
      match hex_val c with
      | Some v => if (v <? radix)%Z then radix_val radix (radix * acc + v)%Z r else None
      | None => None
      end
  end.

Definition radix_literal (radix : Z) (cs : list ascii) : option Z :=
  match cs with [] => None | _ => radix_val radix 0%Z cs end.

Definition is_char (c : ascii) (s : string) : bool :=
  match s with String d EmptyString => Ascii.eqb c d | _ => false end.

(** An exponent part [e|E] [+|-]? digits at the head of [cs]; when there
    is none the input is returned as it is. *)
Definition take_exponent (cs : list ascii) : Z * list ascii :=
  match cs with
  | c :: r =>
      if is_char c "e" || is_char c "E" then
        let '(neg, r1) :=
          match r with
          | s :: r1 =>
              if is_char s "-" then (true, r1)
              else if is_char s "+" then (false, r1) else (false, r)
          | [] => (false, r)
          end in
        match take_digits r1 with
        | ([], _) => (0%Z, cs)
        | (ds, r2) => ((if neg then - digits_val ds else digits_val ds)%Z, r2)
        end
      else (0%Z, cs)
  | [] => (0%Z, cs)
  end.

Definition decimal_value (int frac : list ascii) (exp : Z) : Q :=
  inject_Z (digits_val (int ++ frac)) * 10 ^ (exp - Z.of_nat (length frac)).

(** ** [Number(string)]: StringToNumber of ECMA-262 *)

(** WhiteSpace and LineTerminator code units below 256. *)
Definition is_StrWhiteSpace (c : ascii) : bool :=
  let n := code c in
  ((9 <=? n)%N && (n <=? 13)%N) || (n =? 32)%N || (n =? 160)%N.

Fixpoint trim_start (cs : list ascii) : list ascii :=
  match cs with
  | c :: r => if is_StrWhiteSpace c then trim_start r else cs
  | [] => []
  end.

Definition trim (cs : list ascii) : list ascii :=
  rev (trim_start (rev (trim_start cs))).

(** StrUnsignedDecimalLiteral without [Infinity]: digits [.] digits?
    exponent?, or [.] digits exponent?, covering all of [cs]. *)
Definition StrUnsignedDecimal (cs : list ascii) : option Q :=
  let '(int, r) := take_digits cs in
  let '(frac, r1) :=
    match r with
    | c :: r' => if is_char c "." then take_digits r' else ([], r)
    | [] => ([], r)
    end in
  match int, frac with
  | [], [] => None
  | _, _ =>
      match take_exponent r1 with
      | (e, []) => Some (decimal_value int frac e)
      | _ => None
      end
  end.

Definition StrDecimalLiteral (cs : list ascii) : number :=
  let '(neg, r) :=
    match cs with
    | s :: r =>
        if is_char s "-" then (true, r)
        else if is_char s "+" then (false, r) else (false, cs)
    | [] => (false, cs)
    end in
  if String.eqb (string_of_list_ascii r) "Infinity" then Infinity neg
  else match StrUnsignedDecimal r with
       | Some q => round_binary64 (if neg then - q else q)
       | None => NaN
       end.

Definition of_integer (o : option Z) : number :=
  match o with Some z => round_binary64 (inject_Z z) | None => NaN end.

Definition StringToNumber (s : string) : number :=
  match trim (list_ascii_of_string s) with
  | [] => Finite 0
  | z :: p :: r =>
      if is_char z "0" && (is_char p "x" || is_char p "X")
      then of_integer (radix_literal 16 r)
      else if is_char z "0" && (is_char p "o" || is_char p "O")
      then of_integer (radix_literal 8 r)
      else if is_char z "0" && (is_char p "b" || is_char p "B")
      then of_integer (radix_literal 2 r)
      else StrDecimalLiteral (z :: p :: r)
  | cs => StrDecimalLiteral cs
  end.

(** ** JSON values *)

Inductive json :=
| JNull
| JBool (b : bool)
| JNum (n : number)
| JStr (s : string)
| JArr (l : list json)
| JObj (m : gmap string json).

(** What a variable or a property read can hold in the handlers: nothing
    ([undefined]), a value that came out of JSON, or a [Date] object,
    given by its time value ([None] is the NaN of an invalid date). *)
Inductive value :=
| VUndefined
| VJson (j : json)
| VDate (t : option Z).

(** ToBoolean. *)
Definition truthy_json (j : json) : bool :=
  match j with
  | JNull => false
  | JBool b => b
  | JNum NaN => false
  | JNum (Finite q) => negb (Qeq_bool q 0)
  | JNum (Infinity _) => true
  | JStr s => negb (String.eqb s "")
  | JArr _ | JObj _ => true
  end.

Definition truthy (v : value) : bool :=
  match v with
  | VUndefined => false
  | VJson j => truthy_json j
  | VDate _ => true
  end.

(** [v == null]: null or undefined. *)
Definition nullish (v : value) : bool :=
  match v with
  | VUndefined | VJson JNull => true
  | _ => false
  end.

(** [v instanceof Date] *)
Definition is_Date (v : value) : bool :=
  match v with VDate _ => true | _ => false end.

(** Whether the conversion of a value to a primitive, as in [Number(v)]
    and [String(v)], throws a TypeError.  A value out of JSON holds no
    function: an object with an own [toString] property has nothing to
    call there, and the [valueOf] it inherits returns the object itself; an
    array is joined from the texts of its elements, [null] being the empty
    text; an object without an own [toString] is [[object Object]]. *)
Fixpoint throws_json (j : json) : bool :=
  match j with
  | JObj m => match m !! "toString" with Some _ => true | None => false end
  | JArr l => existsb throws_json l
  | JNull | JBool _ | JNum _ | JStr _ => false
  end.

Definition ToPrimitive_throws (v : value) : bool :=
  match v with
  | VJson j => throws_json j
  | VUndefined | VDate _ => false
  end.

(** [obj[k]] on a plain object. *)
Definition get (o : gmap string json) (k : string) : value :=
  match o !! k with Some j => VJson j | None => VUndefined end.

(** [{...v}]: the own enumerable properties of [v]. *)
Definition spread (v : json) : gmap string json :=
  match v with
  | JObj m => m
  | JArr l => list_to_map (imap (fun i x => (pretty i, x)) l)
  | JStr s =>
      list_to_map
        (imap (fun i c => (pretty i, JStr (String c EmptyString)))
              (list_ascii_of_string s))
  | JNull | JBool _ | JNum _ => ∅
  end.

End JS.

(* ===================================================================== *)
(** * A reference [JSON.parse] *)
(* ===================================================================== *)

(** The JSON text grammar of ECMA-404 on 8-bit code units.  [parse]
    returns [None] where [JSON.parse] throws a SyntaxError.  An escaped
    code unit above 255 has no 8-bit form and is not accepted.  The
    handlers are stated over any parser (see [Platform]); this one serves
    to run them on concrete requests. *)

Module JSON.
Import JS.

Definition quote : ascii := ascii_of_N 34.

Definition is_ws (c : ascii) : bool :=
  let n := code c in
  (n =? 32)%N || (n =? 9)%N || (n =? 10)%N || (n =? 13)%N.

Fixpoint skip_ws (cs : list ascii) : list ascii :=
  match cs with
  | c :: r => if is_ws c then skip_ws r else cs
  | [] => []
  end.

(** A JSON number at the head of [cs]: an optional minus, an integer part
    without leading zeros, an optional fraction with at least one digit,
    an optional exponent. *)
Definition take_number (cs : list ascii) : option (number * list ascii) :=
  let '(neg, r) :=
    match cs with
    | s :: r => if is_char s "-" then (true, r) else (false, cs)
    | [] => (false, cs)
    end in
  let '(int, r1) := take_digits r in
  match int with
  | [] => None
  | d :: ds =>
      if is_char d "0" && negb (match ds with [] => true | _ => false end)
      then None
      else
        let frac :=
          match r1 with
          | c :: r' =>
              if is_char c "." then
                match take_digits r' with
                | ([], _) => None
                | (fs, r2) => Some (fs, r2)
                end
              else Some ([], r1)
          | [] => Some ([], r1)
          end in
        match frac with
        | None => None
        | Some (fs, r2) =>
            let '(e, r3) := take_exponent r2 in
            let q := decimal_value int fs e in
            Some (round_binary64 (if neg then - q else q), r3)
        end
  end.

Definition hex4 (a b c d : ascii) : option Z :=
  match hex_val a, hex_val b, hex_val c, hex_val d with
  | Some x, Some y, Some z, Some w => Some (((x * 16 + y) * 16 + z) * 16 + w)%Z
  | _, _, _, _ => None
  end.

Definition simple_escape (c : ascii) : option ascii :=
  if Ascii.eqb c quote then Some quote
  else if is_char c "\" then Some c
  else if is_char c "/" then Some c
  else if is_char c "b" then Some (ascii_of_N 8)
  else if is_char c "f" then Some (ascii_of_N 12)
  else if is_char c "n" then Some (ascii_of_N 10)
  else if is_char c "r" then Some (ascii_of_N 13)
  else if is_char c "t" then Some (ascii_of_N 9)
  else None.

(** The characters of a string after its opening quote, up to and
    including the closing one; [acc] holds the decoded prefix, reversed. *)
Fixpoint take_string (cs : list ascii) (acc : list ascii)
  : option (string * list ascii) :=
  match cs with
  | [] => None
  | c :: r =>
      if Ascii.eqb c quote then Some (string_of_list_ascii (rev acc), r)
      else if is_char c "\" then
        match r with
        | e :: r1 =>
            if is_char e "u" then
              match r1 with
              | h1 :: h2 :: h3 :: h4 :: r2 =>
                  match hex4 h1 h2 h3 h4 with
                  | Some u =>
                      if (u <? 256)%Z
                      then take_string r2 (ascii_of_N (Z.to_N u) :: acc)
                      else None
                  | None => None
                  end
              | _ => None
              end
            else
              match simple_escape e with
              | Some x => take_string r1 (x :: acc)
              | None => None
              end
        | [] => None
        end
      else if (code c <? 32)%N then None
      else take_string r (c :: acc)
  end.

Definition strip_prefix (p : string) (cs : list ascii) : option (list ascii) :=
  let ps := list_ascii_of_string p in
  if String.eqb (string_of_list_ascii (take (length ps) cs)) p
  then Some (drop (length ps) cs) else None.

Fixpoint parse_value (fuel : nat) (cs : list ascii) {struct fuel}
  : option (json * list ascii) :=
  match fuel with
  | O => None
  | S fuel =>
      match skip_ws cs with
      | [] => None
      | c :: r =>
          if is_char c "{" then
            match skip_ws r with
            | d :: r' =>
                if is_char d "}" then Some (JObj ∅, r')
                else parse_members fuel ∅ r
            | [] => None
            end
          else if is_char c "[" then
            match skip_ws r with
            | d :: r' =>
                if is_char d "]" then Some (JArr [], r')
                else parse_elements fuel [] r
            | [] => None
            end
          else if Ascii.eqb c quote then
            match take_string r [] with
            | Some (s, r') => Some (JStr s, r')
            | None => None
            end
          else if is_char c "t" then
            match strip_prefix "true" (c :: r) with
            | Some r' => Some (JBool true, r') | None => None end
          else if is_char c "f" then
            match strip_prefix "false" (c :: r) with
            | Some r' => Some (JBool false, r') | None => None end
          else if is_char c "n" then
            match strip_prefix "null" (c :: r) with
            | Some r' => Some (JNull, r') | None => None end
          else
            match take_number (c :: r) with
            | Some (n, r') => Some (JNum n, r')
            | None => None
            end
      end
  end
with parse_elements (fuel : nat) (acc : list json) (cs : list ascii)
  {struct fuel} : option (json * list ascii) :=
  match fuel with
  | O => None
  | S fuel =>
      match parse_value fuel cs with
      | Some (v, r) =>
          match skip_ws r with
          | d :: r' =>
              if is_char d "," then parse_elements fuel (v :: acc) r'
              else if is_char d "]" then Some (JArr (rev (v :: acc)), r')
              else None
          | [] => None
          end
      | None => None
      end
  end
with parse_members (fuel : nat) (acc : gmap string json) (cs : list ascii)
  {struct fuel} : option (json * list ascii) :=
  match fuel with
  | O => None
  | S fuel =>
      match skip_ws cs with
      | q :: r =>
          if Ascii.eqb q quote then
            match take_string r [] with
            | Some (k, r1) =>
                match skip_ws r1 with
                | c :: r2 =>
                    if is_char c ":" then
                      match parse_value fuel r2 with
                      | Some (v, r3) =>
                          match skip_ws r3 with
                          | d :: r4 =>
                              if is_char d ","
                              then parse_members fuel (<[k := v]> acc) r4
                              else if is_char d "}"
                              then Some (JObj (<[k := v]> acc), r4)
                              else None
                          | [] => None
                          end
                      | None => None
                      end
                    else None
                | [] => None
                end
            | None => None
            end
          else None
      | [] => None
      end
  end.

Definition parse (text : string) : option json :=
  let cs := list_ascii_of_string text in
  match parse_value (2 * length cs + 2) cs with
  | Some (v, r) => match skip_ws r with [] => Some v | _ => None end
  | None => None
  end.

End JSON.

(* ===================================================================== *)
(** * Dates *)
(* ===================================================================== *)

Module Date.
Import JS.

(** TimeClip: the time value of [new Date(n)]. *)
Definition TimeClip (n : number) : option Z :=
  match n with
  | Finite q =>
      if Qle_bool (Qabs q) (inject_Z 8640000000000000)
      then Some (Z.quot (Qnum q) (Zpos (Qden q)))
      else None
  | _ => None
  end.

Definition is_leap (y : Z) : bool :=
  ((y mod 4 =? 0) && (negb (y mod 100 =? 0) || (y mod 400 =? 0)))%Z.

Definition days_in_month (y m : Z) : Z :=
  (if (m =? 2) then (if is_leap y then 29 else 28)
   else if (m =? 4) || (m =? 6) || (m =? 9) || (m =? 11) then 30
   else 31)%Z.

(** Days from 1970-01-01 to the given day of the proleptic Gregorian
    calendar. *)
Definition days_from_civil (y m d : Z) : Z :=
  (let y' := if m <=? 2 then y - 1 else y in
   let era := y' / 400 in
   let yoe := y' - era * 400 in
   let mp := if 2 <? m then m - 3 else m + 9 in
   let doy := (153 * mp + 2) / 5 + d - 1 in
   let doe := yoe * 365 + yoe / 4 - yoe / 100 + doy in
   era * 146097 + doe - 719468)%Z.

Definition take_fixed (n : nat) (cs : list ascii) : option (Z * list ascii) :=
  let ds := take n cs in
  if (length ds =? n)%nat && forallb is_digit ds
  then Some (digits_val ds, drop n cs) else None.

Definition starts (c : string) (cs : list ascii) : option (list ascii) :=
  match cs with
  | x :: r => if is_char x c then Some r else None
  | [] => None
  end.

(** HH:mm, HH:mm:ss or HH:mm:ss.sss followed by [Z] and nothing else:
    milliseconds since midnight. *)
Definition iso_time (cs : list ascii) : option Z :=
  '(h, r) ← take_fixed 2 cs;
  r ← starts ":" r;
  '(mi, r) ← take_fixed 2 r;
  '(s, ms, r) ←
    match starts ":" r with
    | Some r1 =>
        '(s, r2) ← take_fixed 2 r1;
        match starts "." r2 with
        | Some r3 => '(ms, r4) ← take_fixed 3 r3; Some (s, ms, r4)
        | None => Some (s, 0%Z, r2)
        end
    | None => Some (0%Z, 0%Z, r)
    end;
  match starts "Z" r with
  | Some [] =>
      if ((h <=? 23) && (mi <=? 59) && (s <=? 59))%Z
      then Some (((h * 60 + mi) * 60 + s) * 1000 + ms)%Z
      else None
  | _ => None
  end.

(** The part of the ECMA-262 date-time string format that every engine
    reads alike: YYYY, YYYY-MM or YYYY-MM-DD, alone or followed by [T], a
    time and [Z], with every field in range.  Such a text denotes a UTC
    instant.  Any other text (offsets, local times, expanded years, out of
    range fields, free-form dates) is left to the engine. *)
Definition parse_iso (text : string) : option Z :=
  let cs := list_ascii_of_string text in
  '(y, r) ← take_fixed 4 cs;
  '(m, d, r) ←
    match starts "-" r with
    | Some r1 =>
        '(m, r2) ← take_fixed 2 r1;
        match starts "-" r2 with
        | Some r3 => '(d, r4) ← take_fixed 2 r3; Some (m, d, r4)
        | None => Some (m, 1%Z, r2)
        end
    | None => Some (1%Z, 1%Z, r)
    end;
  if ((1 <=? m) && (m <=? 12) && (1 <=? d) && (d <=? days_in_month y m))%Z
  then
    match r with
    | [] => Some (days_from_civil y m d * 86400000)%Z
    | _ =>
        r ← starts "T" r;
        t ← iso_time r;
        Some (days_from_civil y m d * 86400000 + t)%Z
    end
  else None.

End Date.

(* ===================================================================== *)
(** * What the handlers take from their environment *)
(* ===================================================================== *)

Import JS.

(** A 12-byte ObjectId, as the number its bytes denote.  [String(id)] is
    its 24-digit hexadecimal text: never empty, and equal for two ids only
    when the ids are equal, so that comparing the texts of two ids is
    comparing the ids. *)
Abbreviation ObjectId := N.

(** [String(id)], that is [id.toString()] and [id.toHexString()]: the 24
    hexadecimal digits of the 12 bytes, in lower case. *)
Definition hex_digit (d : N) : ascii :=
  if (d <? 10)%N then ascii_of_N (48 + d) else ascii_of_N (87 + d).

Fixpoint hex_digits (k : nat) (n : N) (acc : string) : string :=
  match k with
  | O => acc
  | S k' => hex_digits k' (n / 16)%N (String (hex_digit (n mod 16)%N) acc)
  end.

Definition ObjectId_toString (id : ObjectId) : string := hex_digits 24 id "".

Class Platform := {
  (** [JSON.parse]; [None] when it throws a SyntaxError. *)
  JSON_parse : string -> option json;
  (** [Date.parse] on a text that [Date.parse_iso] does not read: the
      engine's own formats; [None] for NaN. *)
  Date_parse_impl : string -> option Z;
  (** [String(v)] for a number, an array, an object or a Date. *)
  ToString_other : value -> string;
  (** [mongoose.Types.ObjectId.isValid]. *)
  ObjectId_isValid : value -> bool;
  (** Mongoose's cast of a value used as an [_id] in a query; [None] when
      it throws a CastError. *)
  castObjectId : value -> option ObjectId;
  (** The Task schema applied to the [name] and the [description] that a
      handler has assigned, at [save()]: the String cast, [trim] and
      [required]; [None] when validation fails. *)
  TaskSchema_name : value -> option string;
  TaskSchema_description : value -> option string;
  (** Likewise for the User schema (models/user.js). *)
  UserSchema_name : value -> option string;
  UserSchema_email : value -> option string
}.

(** ** Errors and results *)

Inductive error :=
| HttpError (message : string) (statusCode : nat)
    (** [new Error(message)] with its [statusCode] set by the thrower *)
| SyntaxError       (** thrown by [JSON.parse] itself *)
| CastError         (** Mongoose: a query value that does not cast *)
| ValidationError.  (** Mongoose: [save()] of a rejected document *)

Definition MalformedQuery (name : string) : error :=
  HttpError ("Invalid JSON in '" +:+ name +:+ "'") 400.

Definition InvalidDeadline : error :=
  HttpError "deadline must be a valid date or epoch milliseconds" 400.

Definition InvalidAssigneeId : error :=
  HttpError "assignedUser is not a valid id" 400.

Definition AssigneeNotFound : error :=
  HttpError "assignedUser does not exist" 400.

Inductive result (A : Type) :=
| Ok (a : A)
| Throw (e : error).
Arguments Ok {A} a.
Arguments Throw {A} e.

Definition result_bind {A B} (r : result A) (k : A -> result B) : result B :=
  match r with Ok a => k a | Throw e => Throw e end.

Notation "'try!' x <- r ; k" := (result_bind r (fun x => k))
  (at level 10, x name, r at level 100, k at level 200).

(* ===================================================================== *)
(** * Query parsing (routes/_utils.js, routes/tasks.js, routes/users.js) *)
(* ===================================================================== *)

Section QueryParser.
Context `{Platform}.

(** [req.query]: raw parameter names to raw string values. *)
Definition Query := gmap string string.

Record QueryDescriptor := {
  where_ : value;
  sort : value;
  select : value;
  skip : number;
  limit : number;
  count : bool
}.

Definition parseJSONParam (val : option string) (name : string) : result value :=
  match val with
  | None => Ok VUndefined
  | Some text =>
      match JSON_parse text with
      | Some j => Ok (VJson j)
      | None => Throw (MalformedQuery name)
      end
  end.

(** [req.query.where ?? req.query.filter] *)
Definition rawWhere (q : gmap string string) : option string :=
  match q !! "where" with
  | Some w => Some w
  | None => q !! "filter"
  end.

(** [a === b] on two raw parameters. *)
Definition raw_eqb (a b : option string) : bool :=
  match a, b with
  | Some x, Some y => String.eqb x y
  | None, None => true
  | _, _ => false
  end.

(** ToBoolean of a raw parameter. *)
Definition raw_truthy (a : option string) : bool :=
  match a with
  | Some s => negb (String.eqb s "")
  | None => false
  end.

(** [v || undefined] *)
Definition or_undefined (v : value) : value :=
  if truthy v then v else VUndefined.

(** [+raw] *)
Definition to_number (raw : option string) : number :=
  match raw with
  | Some s => StringToNumber s
  | None => NaN
  end.

Definition toLowerCase_char (c : ascii) : ascii :=
  let n := code c in
  if ((65 <=? n)%N && (n <=? 90)%N)
     || ((192 <=? n)%N && (n <=? 222)%N && negb (n =? 215)%N)
  then ascii_of_N (n + 32) else c.

Definition toLowerCase (s : string) : string :=
  string_of_list_ascii (map toLowerCase_char (list_ascii_of_string s)).

(** [Number.isFinite(+raw) ? Math.max(0, +raw) : otherwise] *)
Definition clamp (raw : option string) (otherwise : number) : number :=
  if Number_isFinite (to_number raw)
  then Math_max (Finite 0) (to_number raw)
  else otherwise.

(** [String(raw).toLowerCase() === 'true'] *)
Definition count_flag (raw : option string) : bool :=
  String.eqb
    (toLowerCase (match raw with Some s => s | None => "undefined" end))
    "true".

(** The [where] of the task routes and of the user list route. *)
Definition parse_where (q : gmap string string) : result value :=
  if raw_truthy (rawWhere q)
  then parseJSONParam (rawWhere q)
         (if raw_eqb (rawWhere q) (q !! "where") then "where" else "filter")
  else Ok (VJson (JObj ∅)).

(** A bare [JSON.parse(raw)]: its own SyntaxError escapes.  An absent
    parameter reads as the text [undefined], which is not JSON. *)
Definition JSON_parse_raw (raw : option string) : result value :=
  match raw with
  | Some text =>
      match JSON_parse text with
      | Some j => Ok (VJson j)
      | None => Throw SyntaxError
      end
  | None => Throw SyntaxError
  end.

(** routes/_utils.js.  [defaults_limit] is [defaults.limit]. *)
Definition parseQueryParams (q : gmap string string)
    (defaults_limit : option number) : result QueryDescriptor :=
  try! where_ <-
    (if raw_truthy (rawWhere q)
     then JSON_parse_raw (rawWhere q)
     else Ok (VJson (JObj ∅)));
  try! sort <- parseJSONParam (q !! "sort") "sort";
  try! select <- parseJSONParam (q !! "select") "select";
  Ok {| where_ := where_;
        sort := or_undefined sort;
        select := or_undefined select;
        skip := clamp (q !! "skip") (Finite 0);
        limit := clamp (q !! "limit")
                   (match defaults_limit with Some l => l | None => Finite 0 end);
        count := count_flag (q !! "count") |}.

(** routes/tasks.js *)
Definition parseQueryWithFilterAlias (q : gmap string string)
    (defaults_limit : option number) : result QueryDescriptor :=
  try! where_ <- parse_where q;
  try! sort <- parseJSONParam (q !! "sort") "sort";
  try! select <- parseJSONParam (q !! "select") "select";
  Ok {| where_ := where_;
        sort := or_undefined sort;
        select := or_undefined select;
        skip := clamp (q !! "skip") (Finite 0);
        limit := clamp (q !! "limit")
                   (match defaults_limit with Some l => l | None => Finite 0 end);
        count := count_flag (q !! "count") |}.

(** [where && typeof where === 'object'] together with an own property
    [_id]: the object's properties.  An array has index properties only. *)
Definition object_with_id (where_ : value) : option (gmap string json * json) :=
  match where_ with
  | VJson (JObj m) =>
      match m !! "_id" with
      | Some v => Some (m, v)
      | None => None
      end
  | _ => None
  end.

(** [v === 1 || v === 0] *)
Definition is_one_or_zero (v : json) : bool :=
  match v with
  | JNum n => number_eqb n (Finite 1) || number_eqb n (Finite 0)
  | _ => false
  end.

(** [{ ...(select || {}), _id: v }] *)
Definition select_with_id (select : value) (v : json) : value :=
  VJson (JObj (<["_id" := v]>
    (match select with
     | VJson j => if truthy_json j then spread j else ∅
     | _ => ∅
     end))).

(** The [_id] rule of the two list routes: [where._id] moves to [select]
    when it is 1 or 0.  routes/tasks.js tests [hasOwnProperty], routes/users.js
    tests ['_id' in where]; on a value that came out of [JSON.parse] both
    hold exactly for an object with a member [_id]. *)
Definition move_id (where_ select : value) : value * value :=
  match object_with_id where_ with
  | Some (m, v) =>
      if is_one_or_zero v
      then (VJson (JObj (delete "_id" m)), select_with_id select v)
      else (where_, select)
  | None => (where_, select)
  end.

(** GET /api/tasks, up to the query it hands to the store. *)
Definition tasks_list_query (q : gmap string string) : result QueryDescriptor :=
  try! where_ <- parse_where q;
  try! select <- parseJSONParam (q !! "select") "select";
  try! sort <- parseJSONParam (q !! "sort") "sort";
  let '(where', select') := move_id where_ (or_undefined select) in
  Ok {| where_ := where';
        sort := or_undefined sort;
        select := select';
        skip := clamp (q !! "skip") (Finite 0);
        limit := clamp (q !! "limit") (Finite 100);
        count := count_flag (q !! "count") |}.

(** GET /api/users, up to the query it hands to the store. *)
Definition users_list_query (q : gmap string string) : result QueryDescriptor :=
  try! where_ <- parse_where q;
  try! select <- parseJSONParam (q !! "select") "select";
  try! sort <- parseJSONParam (q !! "sort") "sort";
  let '(where', select') := move_id where_ (or_undefined select) in
  Ok {| where_ := where';
        sort := or_undefined sort;
        select := select';
        skip := clamp (q !! "skip") (Finite 0);
        limit := clamp (q !! "limit") (Finite 0);
        count := count_flag (q !! "count") |}.

End QueryParser.

(* ===================================================================== *)
(** * Value coercion (routes/tasks.js) *)
(* ===================================================================== *)

Section ValueCoercion.
Context `{Platform}.

(** [String(v)], for a value whose conversion returns (the TypeError of
    one for which [ToPrimitive_throws] is outside these definitions). *)
Definition String_ (v : value) : string :=
  match v with
  | VUndefined => "undefined"
  | VJson JNull => "null"
  | VJson (JBool true) => "true"
  | VJson (JBool false) => "false"
  | VJson (JStr s) => s
  | _ => ToString_other v
  end.

(** [Number(v)], for a value whose conversion returns (the TypeError of
    one for which [ToPrimitive_throws] is outside these definitions).  An
    array or an object converts through its text. *)
Definition Number_ (v : value) : number :=
  match v with
  | VUndefined => NaN
  | VJson JNull => Finite 0
  | VJson (JBool true) => Finite 1
  | VJson (JBool false) => Finite 0
  | VJson (JNum n) => n
  | VJson (JStr s) => StringToNumber s
  | VJson (JArr _) | VJson (JObj _) => StringToNumber (ToString_other v)
  | VDate (Some t) => Finite (inject_Z t)
  | VDate None => NaN
  end.

(** [Date.parse(text)] *)
Definition Date_parse (text : string) : option Z :=
  match Date.parse_iso text with
  | Some t => Some t
  | None => Date_parse_impl text
  end.

(** The time value of [new Date(v)]: a text is parsed, an array or an
    object is parsed through its text, anything else is taken as a
    number. *)
Definition new_Date (v : value) : option Z :=
  match v with
  | VDate t => t
  | VJson (JStr s) => Date_parse s
  | VJson (JArr _) | VJson (JObj _) => Date_parse (ToString_other v)
  | _ => Date.TimeClip (Number_ v)
  end.

Definition coerceCompleted (val : value) (fallback : bool) : bool :=
  match val with
  | VJson (JBool b) => b
  | _ =>
      if nullish val then fallback
      else
        let s := toLowerCase (String_ val) in
        if String.eqb s "true" then true
        else if String.eqb s "false" then false
        else fallback
  end.

(** The result is a Date, given by its time value. *)
Definition coerceDeadline (val : value) : result (option Z) :=
  match val with
  | VDate t => Ok t
  | _ =>
      let n := Number_ val in
      let d := if isNaN n then new_Date val else Date.TimeClip n in
      match d with
      | None => Throw InvalidDeadline
      | Some t => Ok (Some t)
      end
  end.

End ValueCoercion.

(* ===================================================================== *)
(** * The record store *)
(* ===================================================================== *)

(** models/task.js.  The [_id] of a document is its key in the collection. *)
Module Task.
Record doc := {
  name : string;
  description : string;
  deadline : Z;
  completed : bool;
  assignedUser : option ObjectId;
  assignedUserName : string;
  dateCreated : Z
}.
End Task.

(** Modelled from the spec: models/user.js is not among the sources; a
    User has a name, an email and [pendingTasks], an ordered sequence of
    Task ids. *)
Module User.
Record doc := {
  name : string;
  email : string;
  pendingTasks : list ObjectId
}.
End User.

(** A Task document in memory, while a handler assigns to its paths: the
    [name] and the [description] hold what the handler put there, and the
    schema looks at them when the document is saved. *)
Record TaskObject := {
  o_name : value;
  o_description : value;
  o_deadline : option Z;
  o_completed : bool;
  o_assignedUser : option ObjectId;
  o_assignedUserName : string;
  o_dateCreated : Z
}.

(** The operations a handler issues against the store, in order. *)
Inductive StoreOp :=
| OpUserFindById (id : ObjectId)
| OpUserFindOneByEmail (other_than : ObjectId) (email : string)
| OpUserSave (id : ObjectId)
| OpUserPull (user task : ObjectId)
| OpUserPush (user task : ObjectId)
| OpUserDeleteOne (id : ObjectId)
| OpTaskFindById (id : ObjectId)
| OpTaskFind (ids : list ObjectId) (assignedTo : option ObjectId)
| OpTaskSave (id : ObjectId)
| OpTaskUpdateMany (assignedTo : ObjectId).

Definition is_user_write (op : StoreOp) : bool :=
  match op with
  | OpUserSave _ | OpUserPull _ _ | OpUserPush _ _ | OpUserDeleteOne _ => true
  | _ => false
  end.

Definition is_task_write (op : StoreOp) : bool :=
  match op with
  | OpTaskSave _ | OpTaskUpdateMany _ => true
  | _ => false
  end.

Definition is_write (op : StoreOp) : bool :=
  is_user_write op || is_task_write op.

Record Store := {
  users : gmap ObjectId User.doc;
  tasks : gmap ObjectId Task.doc;
  log : list StoreOp
}.

Definition logged (op : StoreOp) (st : Store) : Store :=
  {| users := users st; tasks := tasks st; log := log st ++ [op] |}.

Definition with_users (us : gmap ObjectId User.doc) (st : Store) : Store :=
  {| users := us; tasks := tasks st; log := log st |}.

Definition with_tasks (ts : gmap ObjectId Task.doc) (st : Store) : Store :=
  {| users := users st; tasks := ts; log := log st |}.

(** Store computations: a result and the store after it.  What was written
    before a throw stays written.  Each operation below is the operation
    as the store carries it out: the throws are those of the casts and of
    validation.  A run in which the store itself rejects an operation
    (connectivity and the like) ends at that operation, with the error
    handed to [next] and what was written before left written; such a run
    is not among the runs of these definitions. *)
Definition M (A : Type) : Type := Store -> result A * Store.

Definition ret {A} (a : A) : M A := fun st => (Ok a, st).

Definition throw {A} (e : error) : M A := fun st => (Throw e, st).

Definition bind {A B} (m : M A) (k : A -> M B) : M B :=
  fun st =>
    match m st with
    | (Ok a, st') => k a st'
    | (Throw e, st') => (Throw e, st')
    end.


Notation "'do!' x <- m ; k" := (bind m (fun x => k))
  (at level 10, x name, m at level 100, k at level 200).
Notation "'do!' ' p <- m ; k" := (bind m (fun x => match x with p => k end))
  (at level 10, p pattern, m at level 100, k at level 200).
Notation "m ;; k" := (bind m (fun _ => k))
  (at level 100, k at level 200, right associativity).

(** [for (const x of l) { await body(x) }] *)
Fixpoint for_each {A} (l : list A) (body : A -> M unit) : M unit :=
  match l with
  | [] => ret tt
  | x :: r => body x ;; for_each r body
  end.

(** [if (c) { await m }] *)
Definition when (c : bool) (m : M unit) : M unit :=
  if c then m else ret tt.

Definition unassigned : string := "unassigned".

Definition unassign (t : Task.doc) : Task.doc :=
  {| Task.name := Task.name t;
     Task.description := Task.description t;
     Task.deadline := Task.deadline t;
     Task.completed := Task.completed t;
     Task.assignedUser := None;
     Task.assignedUserName := unassigned;
     Task.dateCreated := Task.dateCreated t |}.

Definition assign (uid : ObjectId) (uname : string) (t : Task.doc) : Task.doc :=
  {| Task.name := Task.name t;
     Task.description := Task.description t;
     Task.deadline := Task.deadline t;
     Task.completed := Task.completed t;
     Task.assignedUser := Some uid;
     Task.assignedUserName := uname;
     Task.dateCreated := Task.dateCreated t |}.

Definition set_pendingTasks (l : list ObjectId) (u : User.doc) : User.doc :=
  {| User.name := User.name u;
     User.email := User.email u;
     User.pendingTasks := l |}.

(** The [assignedUser] part of a Task filter. *)
Definition assigned_to (assignedTo : option ObjectId) (t : Task.doc) : Prop :=
  match assignedTo with
  | Some uid => Task.assignedUser t = Some uid
  | None => True
  end.

#[global] Instance assigned_to_dec a t : Decision (assigned_to a t).
Proof. destruct a; simpl; apply _. Defined.

Section RecordStore.
Context `{Platform}.

(** [User.findById(raw)] *)
Definition User_findById (raw : value) : M (option (ObjectId * User.doc)) :=
  fun st =>
    match castObjectId raw with
    | None => (Throw CastError, st)
    | Some id =>
        (Ok (match users st !! id with Some u => Some (id, u) | None => None end),
         logged (OpUserFindById id) st)
    end.

(** [Task.findById(raw)] *)
Definition Task_findById (raw : value) : M (option (ObjectId * Task.doc)) :=
  fun st =>
    match castObjectId raw with
    | None => (Throw CastError, st)
    | Some id =>
        (Ok (match tasks st !! id with Some t => Some (id, t) | None => None end),
         logged (OpTaskFindById id) st)
    end.

(** [User.findOne({ _id: { $ne: id }, email })]: is there such a User? *)
Definition User_findOne_other_with_email (id : ObjectId) (e : string) : M bool :=
  fun st =>
    (Ok (bool_decide
           (filter (fun kv => kv.1 <> id /\ User.email kv.2 = e) (users st) <> ∅)),
     logged (OpUserFindOneByEmail id e) st).



(** [t.save()] of a loaded document after an assignment to its
    [assignedUser] and [assignedUserName]. *)
Definition Task_store (id : ObjectId) (t : Task.doc) : M unit :=
  fun st => (Ok tt, logged (OpTaskSave id) (with_tasks (<[id := t]> (tasks st)) st)).

(** [Task.find({ _id: { $in: ids } })], and with [assignedUser: uid] added
    when [assignedTo] is [Some uid]. *)
Definition Task_find (ids : list ObjectId) (assignedTo : option ObjectId)
  : M (list (ObjectId * Task.doc)) :=
  fun st =>
    (Ok (map_to_list
           (filter (fun kv => kv.1 ∈ ids /\ assigned_to assignedTo kv.2)
                   (tasks st))),
     logged (OpTaskFind ids assignedTo) st).

(** Mongoose's cast of the values used as ids in [{ $in: raw }]; [None]
    when one of them does not cast. *)
Definition cast_ids (raw : list value) : option (list ObjectId) :=
  mapM castObjectId raw.

(** [Task.find({ _id: { $in: raw } })] on values that the query casts,
    and with [assignedUser: uid] added when [assignedTo] is [Some uid]. *)
Definition Task_find_in (raw : list value) (assignedTo : option ObjectId)
  : M (list (ObjectId * Task.doc)) :=
  match cast_ids raw with
  | Some ids => Task_find ids assignedTo
  | None => throw CastError
  end.

(** [Task.updateMany({ assignedUser: uid },
                     { $set: { assignedUser: null, assignedUserName: 'unassigned' } })] *)
Definition Task_updateMany_unassign (uid : ObjectId) : M unit :=
  fun st =>
    (Ok tt,
     logged (OpTaskUpdateMany uid)
       (with_tasks
          ((fun t => if bool_decide (Task.assignedUser t = Some uid)
                     then unassign t else t) <$> tasks st) st)).

(** [User.updateOne({ _id: uid }, { $pull: { pendingTasks: tid } })] *)
Definition User_pull (uid tid : ObjectId) : M unit :=
  fun st =>
    (Ok tt,
     logged (OpUserPull uid tid)
       (with_users
          (match users st !! uid with
           | Some u =>
               <[uid := set_pendingTasks
                          (filter (fun x => x <> tid) (User.pendingTasks u)) u]>
                 (users st)
           | None => users st
           end) st)).


(** [user.save()] after the handler has set [name], [email] and
    [pendingTasks].  Modelled from the spec: the elements of [pendingTasks]
    are Task ids, so the document holds the ids that the given elements
    cast to, and the save is rejected when one of them does not cast. *)
Definition User_save (id : ObjectId) (name email : value)
    (pending : list json) : M User.doc :=
  fun st =>
    match UserSchema_name name, UserSchema_email email,
          cast_ids (VJson <$> pending) with
    | Some n, Some e, Some ids =>
        let u := {| User.name := n; User.email := e; User.pendingTasks := ids |} in
        (Ok u, logged (OpUserSave id) (with_users (<[id := u]> (users st)) st))
    | _, _, _ => (Throw ValidationError, st)
    end.

(** [user.deleteOne()] *)
Definition User_deleteOne (id : ObjectId) : M unit :=
  fun st =>
    (Ok tt, logged (OpUserDeleteOne id) (with_users (delete id (users st)) st)).

End RecordStore.

(* ===================================================================== *)
(** * The handlers (routes/tasks.js, routes/users.js) *)
(* ===================================================================== *)

Inductive payload :=
| NoData
| TaskData (id : ObjectId) (t : Task.doc)
| UserData (id : ObjectId) (u : User.doc).

(** How a handler ends: [res.status(status).json({ message, data })], or
    [next(err)] from its [catch]. *)
Inductive outcome :=
| Respond (status : nat) (message : string) (data : payload)
| Next (e : error).

(** [try { ... } catch (err) { next(err); }] *)
Definition handle (m : M outcome) : Store -> outcome * Store :=
  fun st =>
    match m st with
    | (Ok o, st') => (o, st')
    | (Throw e, st') => (Next e, st')
    end.

Definition set_assignment (a : option ObjectId) (n : string) (o : TaskObject)
  : TaskObject :=
  {| o_name := o_name o;
     o_description := o_description o;
     o_deadline := o_deadline o;
     o_completed := o_completed o;
     o_assignedUser := a;
     o_assignedUserName := n;
     o_dateCreated := o_dateCreated o |}.

(** [v === ''] *)
Definition is_empty_string (v : value) : bool :=
  match v with
  | VJson (JStr s) => String.eqb s ""
  | _ => false
  end.


(** [description ?? ''] *)
Definition or_empty_string (v : value) : value :=
  if nullish v then VJson (JStr "") else v.

(** [const { name, email, pendingTasks } = req.body || {}] in the two
    User handlers: the three values as they came out of the JSON body. *)
Record UserBody := {
  b_name : value;
  b_email : value;
  b_pendingTasks : value
}.

(** [Array.isArray(pendingTasks) ? pendingTasks : []] *)
Definition array_or_empty (pendingTasks : value) : list json :=
  match pendingTasks with
  | VJson (JArr l) => l
  | _ => []
  end.

Section Handlers.
Context `{Platform}.

(** [applyAssignment(task, assignedUserId)].  The task is mutated in
    place in the source; here the mutated task is returned next to the
    function's result. *)
Definition applyAssignment (task : TaskObject) (assignedUserId : value)
  : M (TaskObject * option ObjectId) :=
  if is_empty_string assignedUserId || nullish assignedUserId then
    ret (set_assignment None unassigned task, None)
  else if negb (ObjectId_isValid assignedUserId) then
    throw InvalidAssigneeId
  else
    do! user <- User_findById assignedUserId;
    match user with
    | None => throw AssigneeNotFound
    | Some (uid, u) =>
        ret (set_assignment (Some uid) (User.name u) task, Some uid)
    end.

(** [new Task({ name, description: description ?? '', deadline:
    coerceDeadline(deadline), completed: coerceCompleted(req.body.completed,
    false) })], with the schema defaults of the other paths; [d] is the
    coerced deadline. *)
Definition new_Task (b : gmap string json) (d : option Z) (now : Z) : TaskObject :=
  {| o_name := get b "name";
     o_description := or_empty_string (get b "description");
     o_deadline := d;
     o_completed := coerceCompleted (get b "completed") false;
     o_assignedUser := None;
     o_assignedUserName := unassigned;
     o_dateCreated := now |}.




(** [l.length] as a condition *)
Definition nonempty {A} (l : list A) : bool :=
  match l with [] => false | _ => true end.

(** PUT /api/users/:id *)
Definition putUser (id : string) (body : UserBody) : Store -> outcome * Store :=
  handle
    (if negb (ObjectId_isValid (VJson (JStr id))) then
       ret (Respond 400 "Invalid user id" NoData)
     else if negb (truthy (b_name body)) || negb (truthy (b_email body)) then
       ret (Respond 400 "name and email are required" NoData)
     else
       do! found <- User_findById (VJson (JStr id));
       match found with
       | None => ret (Respond 404 "User not found" NoData)
       | Some (uid, user) =>
           do! dup <- User_findOne_other_with_email uid
                        (toLowerCase (String_ (b_email body)));
           if dup then
             ret (Respond 400 "A user with that email already exists" NoData)
           else
             let newTaskIds := array_or_empty (b_pendingTasks body) in
             let prevTaskIds := ObjectId_toString <$> User.pendingTasks user in
             let newSet := (fun id => String_ (VJson id)) <$> newTaskIds in
             let prevSet := prevTaskIds in
             let toRemove := filter (fun id => id ∉ newSet) prevTaskIds in
             let toAdd :=
               filter (fun id => String_ (VJson id) ∉ prevSet) newTaskIds in
             do! user' <- User_save uid (b_name body) (b_email body) newTaskIds;
             when (nonempty toRemove)
               (do! ts <- Task_find_in ((fun id => VJson (JStr id)) <$> toRemove)
                            (Some uid);
                for_each ts (fun kt => Task_store kt.1 (unassign kt.2))) ;;
             when (nonempty toAdd)
               (do! ts <- Task_find_in (VJson <$> toAdd) None;
                for_each ts
                  (fun kt => Task_store kt.1 (assign uid (User.name user') kt.2))) ;;
             ret (Respond 200 "OK" (UserData uid user'))
       end).

(** DELETE /api/users/:id *)
Definition deleteUser (id : string) : Store -> outcome * Store :=
  handle
    (if negb (ObjectId_isValid (VJson (JStr id))) then
       ret (Respond 400 "Invalid user id" NoData)
     else
       do! found <- User_findById (VJson (JStr id));
       match found with
       | None => ret (Respond 404 "User not found" NoData)
       | Some (uid, user) =>
           Task_updateMany_unassign uid ;;
           User_deleteOne uid ;;
           ret (Respond 204 "No Content" NoData)
       end).

End Handlers.


(* ===================================================================== *)
(** * The other handlers (routes/tasks.js, routes/users.js) *)
(* ===================================================================== *)

(** DELETE /api/tasks/:id and POST /api/users issue two store operations
    that the handlers above do not: [task.deleteOne()] and
    [User.findOne({ email })].  Their sessions log these next to the
    operations above. *)
Inductive StoreCall :=
| Call (op : StoreOp)
| CallTaskDeleteOne (id : ObjectId)
| CallUserFindOneByEmail (email : string).

Definition is_user_write_call (c : StoreCall) : bool :=
  match c with
  | Call op => is_user_write op
  | _ => false
  end.

Definition is_write_call (c : StoreCall) : bool :=
  match c with
  | Call op => is_write op
  | CallTaskDeleteOne _ => true
  | CallUserFindOneByEmail _ => false
  end.

Record Session := {
  s_users : gmap ObjectId User.doc;
  s_tasks : gmap ObjectId Task.doc;
  calls : list StoreCall
}.

Definition S (A : Type) : Type := Session -> result A * Session.

Definition S_ret {A} (a : A) : S A := fun s => (Ok a, s).

Definition S_bind {A B} (m : S A) (k : A -> S B) : S B :=
  fun s =>
    match m s with
    | (Ok a, s') => k a s'
    | (Throw e, s') => (Throw e, s')
    end.

Notation "'run!' x <- m ; k" := (S_bind m (fun x => k))
  (at level 10, x name, m at level 100, k at level 200).
Notation "'run!' ' p <- m ; k" := (S_bind m (fun x => match x with p => k end))
  (at level 10, p pattern, m at level 100, k at level 200).
Notation "'then!' m ; k" := (S_bind m (fun _ => k))
  (at level 10, m at level 100, k at level 200).

(** One of the store computations above, issued in a session: it runs on
    the two collections and what it logs is appended to the calls. *)
Definition issue {A} (m : M A) : S A :=
  fun s =>
    let run := m {| users := s_users s; tasks := s_tasks s; log := [] |} in
    (run.1,
     {| s_users := users run.2;
        s_tasks := tasks run.2;
        calls := calls s ++ map Call (log run.2) |}).

(** [task.deleteOne()] *)
Definition Task_deleteOne (id : ObjectId) : S unit :=
  fun s =>
    (Ok tt,
     {| s_users := s_users s;
        s_tasks := delete id (s_tasks s);
        calls := calls s ++ [CallTaskDeleteOne id] |}).

(** [User.findOne({ email })]: is there such a User? *)
Definition User_findOne_with_email (e : string) : S bool :=
  fun s =>
    (Ok (bool_decide (filter (fun kv => User.email kv.2 = e) (s_users s) <> ∅)),
     {| s_users := s_users s;
        s_tasks := s_tasks s;
        calls := calls s ++ [CallUserFindOneByEmail e] |}).

(** [try { ... } catch (err) { next(err); }] *)
Definition S_handle (m : S outcome) : Session -> outcome * Session :=
  fun s =>
    match m s with
    | (Ok o, s') => (o, s')
    | (Throw e, s') => (Next e, s')
    end.

(** What GET /api/tasks/:id and GET /api/users/:id do before they go to
    the store: they answer, or they look the id up with a projection. *)
Inductive by_id_step :=
| Answered (status : nat) (message : string)
| FindById (id : string) (select : value).

Section OtherHandlers.
Context `{Platform}.

(** DELETE /api/tasks/:id *)
Definition deleteTask (id : string) : Session -> outcome * Session :=
  S_handle
    (if negb (ObjectId_isValid (VJson (JStr id))) then
       S_ret (Respond 400 "Invalid task id" NoData)
     else
       run! found <- issue (Task_findById (VJson (JStr id)));
       match found with
       | None => S_ret (Respond 404 "Task not found" NoData)
       | Some (tid, task) =>
           let assignedUser := Task.assignedUser task in
           then! Task_deleteOne tid;
           then! match assignedUser with
                | Some uid => issue (User_pull uid tid)
                | None => S_ret tt
                end;
           S_ret (Respond 204 "No Content" NoData)
       end).

(** POST /api/users.  [new_id] is the [_id] that [new User] generates. *)
Definition postUser (body : UserBody) (new_id : ObjectId)
  : Session -> outcome * Session :=
  S_handle
    (if negb (truthy (b_name body)) || negb (truthy (b_email body)) then
       S_ret (Respond 400 "name and email are required" NoData)
     else
       run! taken <- User_findOne_with_email (toLowerCase (String_ (b_email body)));
       if taken then
         S_ret (Respond 400 "A user with that email already exists" NoData)
       else
         let pending := array_or_empty (b_pendingTasks body) in
         run! user <- issue (User_save new_id (b_name body) (b_email body) pending);
         then! issue
                (when (nonempty (User.pendingTasks user))
                   (do! ts <- Task_find (User.pendingTasks user) None;
                    for_each ts
                      (fun kt =>
                         Task_store kt.1 (assign new_id (User.name user) kt.2))));
         S_ret (Respond 201 "Created" (UserData new_id user))).

(** GET /api/tasks/:id, up to the lookup it hands to the store. *)
Definition getTask_query (id : string) (q : gmap string string)
  : result by_id_step :=
  if negb (ObjectId_isValid (VJson (JStr id))) then
    Ok (Answered 400 "Invalid task id")
  else
    try! d <- parseQueryWithFilterAlias q None;
    Ok (FindById id (or_undefined (select d))).

(** GET /api/users/:id, up to the lookup it hands to the store. *)
Definition getUser_query (id : string) (q : gmap string string)
  : result by_id_step :=
  if negb (ObjectId_isValid (VJson (JStr id))) then
    Ok (Answered 400 "Invalid user id")
  else
    try! d <- parseQueryParams q None;
    Ok (FindById id (or_undefined (select d))).

End OtherHandlers.

(** A store as a session with no call yet, and back. *)
Definition session_of (st : Store) : Session :=
  {| s_users := users st; s_tasks := tasks st; calls := [] |}.

(* ===================================================================== *)
(** * Notions used to state the properties *)
(* ===================================================================== *)



Definition pulled (tid : ObjectId) (u : User.doc) : User.doc :=
  set_pendingTasks (filter (fun x => x <> tid) (User.pendingTasks u)) u.


(** The Tasks after saving [f t] for each found [(id, t)], in order. *)
Definition store_each (f : Task.doc -> Task.doc)
    (ts : gmap ObjectId Task.doc) (found : list (ObjectId * Task.doc))
  : gmap ObjectId Task.doc :=
  foldl (fun m kt => <[kt.1 := f kt.2]> m) ts found.

(** The two sides of the assignment agree: a Task listed in a User's
    [pendingTasks] is, when it exists, assigned to that User; and a Task
    assigned to a User is, when the User exists, listed in that User's
    [pendingTasks]. *)
Definition consistent (us : gmap ObjectId User.doc)
    (ts : gmap ObjectId Task.doc) : Prop :=
  (forall uid u tid t,
     us !! uid = Some u -> tid ∈ User.pendingTasks u -> ts !! tid = Some t ->
     Task.assignedUser t = Some uid) /\
  (forall tid t uid u,
     ts !! tid = Some t -> Task.assignedUser t = Some uid -> us !! uid = Some u ->
     tid ∈ User.pendingTasks u).

(** [t'] is [t] on every path but the two of the assignment. *)
Definition same_apart_from_assignee (t t' : Task.doc) : Prop :=
  Task.name t' = Task.name t /\ Task.description t' = Task.description t /\
  Task.deadline t' = Task.deadline t /\ Task.completed t' = Task.completed t /\
  Task.dateCreated t' = Task.dateCreated t.

(** [defaults.limit ?? 0] *)
Definition default_limit (dl : option number) : number :=
  match dl with Some l => l | None => Finite 0 end.

(** A finite, non-negative number. *)
Definition non_negative (n : number) : Prop :=
  exists q, n = Finite q /\ (0 <= q)%Q.

(** The largest time value of a Date, in milliseconds from the epoch. *)
Definition max_time : Z := 8640000000000000.

(* ===================================================================== *)
(** * A reference platform *)
(* ===================================================================== *)

(** One environment on which the handlers run, for the examples: ids are
    cast from the 24-digit hexadecimal texts, in either letter case, and
    [ObjectId.isValid] accepts these and any number; [JSON.parse] is
    [JSON.parse] above; no date text beyond the common format is read; a
    Task name is a text that is not blank; an email is kept in lower
    case.  It does not follow the engine and Mongoose on other inputs
    (names that are not texts, date texts that an engine reads by its own
    rules), which no example uses. *)

Module Reference.

Definition id_of_text (s : string) : option ObjectId :=
  let cs := list_ascii_of_string s in
  if (length cs =? 24)%nat
  then match radix_literal 16 cs with
       | Some z => Some (Z.to_N z)
       | None => None
       end
  else None.

Definition id_of_value (v : value) : option ObjectId :=
  match v with
  | VJson (JStr s) => id_of_text s
  | _ => None
  end.

Definition is_some {A} (o : option A) : bool :=
  match o with Some _ => true | None => false end.

(** [ObjectId.isValid] accepts what the [ObjectId] constructor accepts:
    the 24-digit texts, and also any number, which the cast of a query
    refuses. *)
Definition is_valid (v : value) : bool :=
  match v with
  | VJson (JNum _) => true
  | _ => is_some (id_of_value v)
  end.

Definition text (v : value) : option string :=
  match v with
  | VJson (JStr s) => Some s
  | _ => None
  end.

Definition trimmed_text (v : value) : option string :=
  match v with
  | VJson (JStr s) =>
      let t := string_of_list_ascii (trim (list_ascii_of_string s)) in
      if String.eqb t "" then None else Some t
  | _ => None
  end.

Definition lower_text (v : value) : option string :=
  match trimmed_text v with
  | Some t => Some (toLowerCase t)
  | None => None
  end.

(** The text of a number that is an integer, of an array of such values
    and of a plain object; other numbers and dates have engine-specific
    texts, which the examples below do not use. *)
Definition number_text (n : number) : string :=
  match n with
  | NaN => "NaN"
  | Infinity false => "Infinity"
  | Infinity true => "-Infinity"
  | Finite q => pretty (Z.quot (Qnum q) (Zpos (Qden q)))
  end.

Fixpoint json_text (j : json) : string :=
  match j with
  | JNull => "null"
  | JBool true => "true"
  | JBool false => "false"
  | JNum n => number_text n
  | JStr s => s
  | JArr l =>
      String.concat ","
        (map (fun e => match e with JNull => "" | _ => json_text e end) l)
  | JObj _ => "[object Object]"
  end.

Definition other_text (v : value) : string :=
  match v with
  | VUndefined => "undefined"
  | VJson j => json_text j
  | VDate _ => "Invalid Date"
  end.

#[global] Instance platform : Platform := {|
  JSON_parse := JSON.parse;
  Date_parse_impl := fun _ => None;
  ToString_other := other_text;
  ObjectId_isValid := is_valid;
  castObjectId := id_of_value;
  TaskSchema_name := trimmed_text;
  TaskSchema_description := text;
  UserSchema_name := trimmed_text;
  UserSchema_email := lower_text
|}.

(** Sample data. *)
Definition alice_id : string := "000000000000000000000001".
Definition bob_id : string := "000000000000000000000002".
Definition task_id : string := "0000000000000000000000a1".
Definition draft_id : string := "0000000000000000000000a2".

Definition alice : User.doc :=
  {| User.name := "Alice"; User.email := "alice@x.com"; User.pendingTasks := [161%N] |}.
Definition bob : User.doc :=
  {| User.name := "Bob"; User.email := "bob@x.com"; User.pendingTasks := [] |}.

Definition report : Task.doc :=
  {| Task.name := "Report";
     Task.description := "";
     Task.deadline := 1699920000000;
     Task.completed := false;
     Task.assignedUser := Some 1%N;
     Task.assignedUserName := "Alice";
     Task.dateCreated := 1699000000000 |}.

(** [?where={"_id":1,"done":true}&select={"name":1}] *)
Definition ids_only : gmap string string :=
  let quoted s := String JSON.quote s +:+ String JSON.quote "" in
  {[ "where" := "{" +:+ quoted "_id" +:+ ":1," +:+ quoted "done" +:+ ":true}";
     "select" := "{" +:+ quoted "name" +:+ ":1}" ]}.




(** [{ name: "Alice", email: "alice@x.com", pendingTasks: [<id 7>] }] *)
Definition alice_drops_report : UserBody :=
  {| b_name := VJson (JStr "Alice");
     b_email := VJson (JStr "alice@x.com");
     b_pendingTasks := VJson (JArr [JStr "000000000000000000000007"]) |}.

(** [{ name: "Alice", email: "alice@x.com", pendingTasks: [<report>] }],
    with the id of [report] spelled in upper case. *)
Definition alice_respells_report : UserBody :=
  {| b_name := VJson (JStr "Alice");
     b_email := VJson (JStr "alice@x.com");
     b_pendingTasks := VJson (JArr [JStr "0000000000000000000000A1"]) |}.

(** [?skip=-3&limit=abc] *)
Definition odd_page : gmap string string :=
  {[ "skip" := "-3"; "limit" := "abc" ]}.

Definition store0 : Store :=
  {| users := {[ 1%N := alice; 2%N := bob ]};
     tasks := {[ 161%N := report ]};
     log := [] |}.

(** A second Task, assigned to nobody, and the sample store with it. *)
Definition draft : Task.doc :=
  {| Task.name := "Draft";
     Task.description := "";
     Task.deadline := 1699920000000;
     Task.completed := true;
     Task.assignedUser := None;
     Task.assignedUserName := unassigned;
     Task.dateCreated := 1699000000000 |}.

Definition store1 : Store :=
  {| users := {[ 1%N := alice; 2%N := bob ]};
     tasks := {[ 161%N := report; 162%N := draft ]};
     log := [] |}.

(** [{ name: "Bob", email: "bob@x.com", pendingTasks: [<report>] }] *)
Definition bob_takes_report : UserBody :=
  {| b_name := VJson (JStr "Bob");
     b_email := VJson (JStr "bob@x.com");
     b_pendingTasks := VJson (JArr [JStr task_id]) |}.

(** [{ name: "Bob", email: "bob@x.com", pendingTasks: [<draft>] }] *)
Definition bob_takes_draft : UserBody :=
  {| b_name := VJson (JStr "Bob");
     b_email := VJson (JStr "bob@x.com");
     b_pendingTasks := VJson (JArr [JStr draft_id]) |}.

(** [{ name: "Carol", email: "Carol@x.com", pendingTasks: [<report>] }] *)
Definition carol_takes_report : UserBody :=
  {| b_name := VJson (JStr "Carol");
     b_email := VJson (JStr "Carol@x.com");
     b_pendingTasks := VJson (JArr [JStr task_id]) |}.

(** [{ name: "Carol", email: "Carol@x.com", pendingTasks: [<draft>] }] *)
Definition carol_takes_draft : UserBody :=
  {| b_name := VJson (JStr "Carol");
     b_email := VJson (JStr "Carol@x.com");
     b_pendingTasks := VJson (JArr [JStr draft_id]) |}.

End Reference.

(* ===================================================================== *)
(** * Properties of query parsing *)
(* ===================================================================== *)

Section QueryParserFacts.
Context `{Platform}.

Lemma raw_truthy_text (text : string) :
  text <> "" -> raw_truthy (Some text) = true.
Proof.
  intros Hne. unfold raw_truthy.
  destruct (String.eqb_spec text ""); [contradiction | reflexivity].
Qed.

Lemma raw_eqb_refl (raw : option string) : raw_eqb raw raw = true.
Proof. destruct raw; simpl; [apply String.eqb_refl | reflexivity]. Qed.

Lemma parse_where_by_where (q : gmap string string) (text : string) :
  q !! "where" = Some text -> text <> "" ->
  parse_where q = parseJSONParam (Some text) "where".
Proof.
  intros Hw Hne. unfold parse_where, rawWhere. rewrite Hw.
  rewrite (raw_truthy_text _ Hne), raw_eqb_refl. reflexivity.
Qed.

Lemma parse_where_by_filter (q : gmap string string) (text : string) :
  q !! "where" = None -> q !! "filter" = Some text -> text <> "" ->
  parse_where q = parseJSONParam (Some text) "filter".
Proof.
  intros Hw Hf Hne. unfold parse_where, rawWhere. rewrite Hw, Hf.
  rewrite (raw_truthy_text _ Hne). reflexivity.
Qed.

Lemma parse_where_absent (q : gmap string string) :
  rawWhere q = None \/ rawWhere q = Some "" ->
  parse_where q = Ok (VJson (JObj ∅)).
Proof. unfold parse_where. intros [-> | ->]; reflexivity. Qed.

Lemma parse_where_text (q : gmap string string) (text : string) (j : json) :
  rawWhere q = Some text -> text <> "" -> JSON_parse text = Some j ->
  parse_where q = Ok (VJson j).
Proof.
  intros Hr Hne Hp. unfold parse_where. rewrite Hr, (raw_truthy_text _ Hne).
  simpl. rewrite Hp. reflexivity.
Qed.

Lemma parseQueryParams_where_text (q : gmap string string) dl text j :
  rawWhere q = Some text -> text <> "" -> JSON_parse text = Some j ->
  parseQueryParams q dl = parseQueryWithFilterAlias q dl.
Proof.
  intros Hr Hne Hp. unfold parseQueryParams, parseQueryWithFilterAlias.
  rewrite (parse_where_text _ _ _ Hr Hne Hp).
  rewrite Hr, (raw_truthy_text _ Hne). simpl. rewrite Hp. reflexivity.
Qed.

Lemma parseQueryParams_where_absent (q : gmap string string) dl :
  rawWhere q = None \/ rawWhere q = Some "" ->
  parseQueryParams q dl = parseQueryWithFilterAlias q dl.
Proof.
  intros Hr. unfold parseQueryParams, parseQueryWithFilterAlias.
  rewrite (parse_where_absent _ Hr). destruct Hr as [-> | ->]; reflexivity.
Qed.

Lemma parseJSONParam_text (name text : string) :
  parseJSONParam (Some text) name =
  match JSON_parse text with
  | Some j => Ok (VJson j)
  | None => Throw (MalformedQuery name)
  end.
Proof. reflexivity. Qed.

(** [parsed || undefined] for a raw [sort] or [select] that parses. *)
Lemma or_undefined_parsed (raw : option string) (name : string) (v : value) :
  parseJSONParam raw name = Ok v ->
  (raw = None /\ or_undefined v = VUndefined) \/
  (exists text j, raw = Some text /\ JSON_parse text = Some j /\
     or_undefined v = if truthy_json j then VJson j else VUndefined).
Proof.
  destruct raw as [text|]; simpl.
  - destruct (JSON_parse text) as [j|] eqn:Hp; [|discriminate].
    intros [= <-]. right. exists text, j. repeat split; try done.
  - intros [= <-]. left. done.
Qed.

(** C1 (as amended).  For every raw parameter map: when the value read for
    the filter ([where], or [filter] when [where] is absent) is a non-empty
    text that is not valid JSON, [parseQueryWithFilterAlias] and the two
    list routes fail with MalformedQuery naming the key that was read; an
    empty text is read as an absent parameter and gives the empty filter;
    when [where]/[filter], [sort] and [select] are well-formed, the
    descriptor's [where] is the parsed JSON, and its [sort] and [select]
    are the parsed JSON when that value is truthy and [undefined] when it
    is falsy ([null], [false], [0], the empty text). *)
Theorem C1_query_parsing (q : gmap string string) (dl : option number) :
  (forall text, q !! "where" = Some text -> text <> "" ->
     JSON_parse text = None ->
     parseQueryWithFilterAlias q dl = Throw (MalformedQuery "where") /\
     tasks_list_query q = Throw (MalformedQuery "where") /\
     users_list_query q = Throw (MalformedQuery "where")) /\
  (forall text, q !! "where" = None -> q !! "filter" = Some text ->
     text <> "" -> JSON_parse text = None ->
     parseQueryWithFilterAlias q dl = Throw (MalformedQuery "filter") /\
     tasks_list_query q = Throw (MalformedQuery "filter") /\
     users_list_query q = Throw (MalformedQuery "filter")) /\
  (forall vs vsel,
     parseJSONParam (q !! "sort") "sort" = Ok vs ->
     parseJSONParam (q !! "select") "select" = Ok vsel ->
     exists d,
       (forall text j, rawWhere q = Some text -> text <> "" ->
          JSON_parse text = Some j ->
          parseQueryWithFilterAlias q dl = Ok d /\
          parseQueryParams q dl = Ok d /\
          where_ d = VJson j) /\
       (rawWhere q = None \/ rawWhere q = Some "" ->
          parseQueryWithFilterAlias q dl = Ok d /\
          parseQueryParams q dl = Ok d /\
          where_ d = VJson (JObj ∅)) /\
       (forall text j, q !! "sort" = Some text -> JSON_parse text = Some j ->
          sort d = if truthy_json j then VJson j else VUndefined) /\
       (q !! "sort" = None -> sort d = VUndefined) /\
       (forall text j, q !! "select" = Some text -> JSON_parse text = Some j ->
          select d = if truthy_json j then VJson j else VUndefined) /\
       (q !! "select" = None -> select d = VUndefined)).
Proof.
  split; [|split].
  - intros text Hw Hne Hp.
    unfold parseQueryWithFilterAlias, tasks_list_query, users_list_query.
    rewrite (parse_where_by_where _ _ Hw Hne), parseJSONParam_text, Hp.
    done.
  - intros text Hw Hf Hne Hp.
    unfold parseQueryWithFilterAlias, tasks_list_query, users_list_query.
    rewrite (parse_where_by_filter _ _ Hw Hf Hne), parseJSONParam_text, Hp.
    done.
  - intros vs vsel Hs Hsel.
    set (mk := fun w =>
      {| where_ := w; sort := or_undefined vs; select := or_undefined vsel;
         skip := clamp (q !! "skip") (Finite 0);
         limit := clamp (q !! "limit")
                    (match dl with Some l => l | None => Finite 0 end);
         count := count_flag (q !! "count") |}).
    assert (Hrun : forall w, parse_where q = Ok w ->
              parseQueryWithFilterAlias q dl = Ok (mk w)).
    { intros w Hw. unfold parseQueryWithFilterAlias.
      rewrite Hw, Hs, Hsel. reflexivity. }
    assert (Hsort : forall w,
      (forall text j, q !! "sort" = Some text -> JSON_parse text = Some j ->
         sort (mk w) = if truthy_json j then VJson j else VUndefined) /\
      (q !! "sort" = None -> sort (mk w) = VUndefined) /\
      (forall text j, q !! "select" = Some text -> JSON_parse text = Some j ->
         select (mk w) = if truthy_json j then VJson j else VUndefined) /\
      (q !! "select" = None -> select (mk w) = VUndefined)).
    { intros w. simpl.
      destruct (or_undefined_parsed _ _ _ Hs) as [[Hn Hu] | (t & j & Ht & Hj & Hu)];
      destruct (or_undefined_parsed _ _ _ Hsel)
        as [[Hn' Hu'] | (t' & j' & Ht' & Hj' & Hu')];
      rewrite Hu, Hu'; repeat split; intros; simplify_eq; done. }
    destruct (rawWhere q) as [text|] eqn:Hr.
    + destruct (String.eqb_spec text "") as [-> | Hne].
      * exists (mk (VJson (JObj ∅))). split; [|split].
        -- intros text j [= <-] Hne. contradiction.
        -- intros _. rewrite parseQueryParams_where_absent by (rewrite Hr; auto).
           rewrite (Hrun (VJson (JObj ∅))); [done|].
           apply parse_where_absent. rewrite Hr; auto.
        -- apply Hsort.
      * destruct (JSON_parse text) as [j|] eqn:Hp.
        -- exists (mk (VJson j)). split; [|split].
           ++ intros text' j' [= <-] _ Hp'. rewrite Hp in Hp'. injection Hp' as <-.
              rewrite (parseQueryParams_where_text _ _ _ _ Hr Hne Hp).
              rewrite (Hrun (VJson j)); [done|].
              apply (parse_where_text _ _ _ Hr Hne Hp).
           ++ intros [Hx | Hx]; [discriminate | congruence].
           ++ apply Hsort.
        -- exists (mk VUndefined). split; [|split].
           ++ intros text' j' [= <-] _ Hp'. congruence.
           ++ intros [Hx | Hx]; [discriminate | congruence].
           ++ apply Hsort.
    + exists (mk (VJson (JObj ∅))). split; [|split].
      * intros text j Hx. discriminate.
      * intros _. rewrite parseQueryParams_where_absent by (rewrite Hr; auto).
        rewrite (Hrun (VJson (JObj ∅))); [done|].
        apply parse_where_absent. rewrite Hr; auto.
      * apply Hsort.
Qed.

End QueryParserFacts.

(** C1, witness: a [where] that is not JSON, and a well-formed request. *)
Lemma C1_query_parsing_witness :
  parseQueryWithFilterAlias (H := Reference.platform) {[ "where" := "{bad" ]} None
    = Throw (MalformedQuery "where") /\
  parseQueryWithFilterAlias (H := Reference.platform)
      {[ "filter" := "oops"; "sort" := "0" ]} None
    = Throw (MalformedQuery "filter").
Proof.
  split.
  - destruct (C1_query_parsing (H := Reference.platform)
                {[ "where" := "{bad" ]} None) as [Hw _].
    apply (Hw "{bad"); [reflexivity | discriminate | reflexivity].
  - destruct (C1_query_parsing (H := Reference.platform)
                {[ "filter" := "oops"; "sort" := "0" ]} None) as (_ & Hf & _).
    apply (Hf "oops"); [reflexivity | reflexivity | discriminate | reflexivity].
Defined.

(** C1, counterexample: [where] is present and is not JSON (the empty
    text), and no error is raised: it is read as an absent filter; [sort]
    is the JSON text [0], and the descriptor's [sort] is [undefined], not
    the parsed number. *)
Lemma C1_counterexample :
  let q : gmap string string := {[ "where" := ""; "sort" := "0" ]} in
  q !! "where" = Some "" /\
  JSON.parse "" = None /\
  JSON.parse "0" = Some (JNum (Finite 0)) /\
  exists d,
    parseQueryWithFilterAlias (H := Reference.platform) q None = Ok d /\
    where_ d = VJson (JObj ∅) /\
    sort d = VUndefined /\
    sort d <> VJson (JNum (Finite 0)).
Proof.
  repeat split; try reflexivity.
  eexists. repeat split; try reflexivity. discriminate.
Qed.

(** [parseQueryParams] calls [JSON.parse] on the filter directly: what
    escapes on a malformed [where] is the bare SyntaxError. *)
Example parseQueryParams_bare_SyntaxError :
  parseQueryParams (H := Reference.platform) {[ "where" := "{bad" ]} None
  = Throw SyntaxError.
Proof. reflexivity. Qed.

Section IdProjection.
Context `{Platform}.

Lemma move_id_moves (m : gmap string json) (n : number) (select : value) :
  m !! "_id" = Some (JNum n) ->
  number_eqb n (Finite 1) = true \/ number_eqb n (Finite 0) = true ->
  move_id (VJson (JObj m)) select =
  (VJson (JObj (delete "_id" m)), select_with_id select (JNum n)).
Proof.
  intros Hid Hn. unfold move_id, object_with_id. rewrite Hid. simpl.
  destruct Hn as [-> | ->]; [reflexivity | by rewrite orb_true_r].
Qed.

Lemma move_id_keeps (where_ select : value) :
  (forall m n, where_ = VJson (JObj m) -> m !! "_id" = Some (JNum n) ->
     number_eqb n (Finite 1) = false /\ number_eqb n (Finite 0) = false) ->
  move_id where_ select = (where_, select).
Proof.
  intros Hother. unfold move_id, object_with_id.
  destruct where_ as [|[| | | | |m]|]; try reflexivity.
  destruct (m !! "_id") as [v|] eqn:Hid; [|reflexivity].
  destruct v as [| |n| | |]; try reflexivity.
  destruct (Hother m n eq_refl Hid) as [H1 H0]. simpl. by rewrite H1, H0.
Qed.

(** C6.  On both list routes, when the parsed [where] is an object with a
    member [_id] whose value is the number 1 or the number 0, the
    descriptor's [where] is that object without [_id] and its [select] is
    the requested projection (none when absent or falsy) with [_id] set to
    that value; for any other [where] (not an object, no [_id], an [_id]
    that is not a number, or another number) [where] and [select] are left
    as parsed. *)
Theorem C6_id_moves_to_select (q : gmap string string) (vw vsel vs : value) :
  parse_where q = Ok vw ->
  parseJSONParam (q !! "select") "select" = Ok vsel ->
  parseJSONParam (q !! "sort") "sort" = Ok vs ->
  exists dt du,
    tasks_list_query q = Ok dt /\
    users_list_query q = Ok du /\
    where_ du = where_ dt /\
    select du = select dt /\
    (forall m n, vw = VJson (JObj m) -> m !! "_id" = Some (JNum n) ->
       number_eqb n (Finite 1) = true \/ number_eqb n (Finite 0) = true ->
       where_ dt = VJson (JObj (delete "_id" m)) /\
       select dt =
         VJson (JObj (<["_id" := JNum n]>
           (match or_undefined vsel with VJson j => spread j | _ => ∅ end)))) /\
    ((forall m n, vw = VJson (JObj m) -> m !! "_id" = Some (JNum n) ->
        number_eqb n (Finite 1) = false /\ number_eqb n (Finite 0) = false) ->
     where_ dt = vw /\ select dt = or_undefined vsel).
Proof.
  intros Hw Hsel Hs. unfold tasks_list_query, users_list_query.
  rewrite Hw, Hsel, Hs. simpl.
  destruct (move_id vw (or_undefined vsel)) as [w' s'] eqn:Hmove.
  eexists _, _. split; [reflexivity|]. split; [reflexivity|]. simpl.
  split; [reflexivity|]. split; [reflexivity|]. split.
  - intros m n -> Hid Hn. rewrite (move_id_moves _ _ _ Hid Hn) in Hmove.
    injection Hmove as <- <-. split; [reflexivity|].
    unfold select_with_id, or_undefined.
    destruct vsel as [|j|t]; simpl; try reflexivity.
    destruct (truthy_json j) eqn:Hj; simpl; [by rewrite Hj | reflexivity].
  - intros Hother. rewrite (move_id_keeps _ _ Hother) in Hmove.
    by injection Hmove as <- <-.
Qed.

End IdProjection.


(** C6, witness: [where={"_id":1,"done":true}] with [select={"name":1}],
    and [where={"_id":"abc"}]. *)
Lemma C6_id_moves_to_select_witness :
  exists dt du,
    tasks_list_query (H := Reference.platform) Reference.ids_only = Ok dt /\
    users_list_query (H := Reference.platform) Reference.ids_only = Ok du /\
    where_ dt = VJson (JObj {[ "done" := JBool true ]}) /\
    select dt = VJson (JObj {[ "_id" := JNum (Finite 1); "name" := JNum (Finite 1) ]}) /\
    where_ du = where_ dt /\ select du = select dt.
Proof.
  destruct (C6_id_moves_to_select (H := Reference.platform) Reference.ids_only
              (VJson (JObj {[ "_id" := JNum (Finite 1); "done" := JBool true ]}))
              (VJson (JObj {[ "name" := JNum (Finite 1) ]}))
              VUndefined)
    as (dt & du & Ht & Hu & Hw & Hs & Hmoves & _);
    [vm_compute; reflexivity | vm_compute; reflexivity | reflexivity |].
  exists dt, du.
  destruct (Hmoves {[ "_id" := JNum (Finite 1); "done" := JBool true ]} (Finite 1))
    as [Hw' Hs']; [reflexivity | reflexivity | left; reflexivity |].
  repeat split; assumption.
Defined.

(* ===================================================================== *)
(** * Properties of value coercion *)
(* ===================================================================== *)

Section CoercionFacts.
Context `{Platform}.

Lemma coerceDeadline_numeric (v : value) :
  is_Date v = false -> isNaN (Number_ v) = false ->
  coerceDeadline v =
  match Date.TimeClip (Number_ v) with
  | Some t => Ok (Some t)
  | None => Throw InvalidDeadline
  end.
Proof.
  intros Hd Hn. destruct v as [|j|t]; try discriminate;
    unfold coerceDeadline; rewrite Hn; reflexivity.
Qed.

Lemma coerceDeadline_text (v : value) :
  is_Date v = false -> isNaN (Number_ v) = true ->
  coerceDeadline v =
  match new_Date v with
  | Some t => Ok (Some t)
  | None => Throw InvalidDeadline
  end.
Proof.
  intros Hd Hn. destruct v as [|j|t]; try discriminate;
    unfold coerceDeadline; rewrite Hn; reflexivity.
Qed.


End CoercionFacts.



(* ===================================================================== *)
(** * Properties of assignment synchronisation *)
(* ===================================================================== *)

Section AssignmentFacts.
Context `{Platform}.

(** Whether a raw assignee identifier asks for no assignee: [''], [null]
    or absent. *)
Lemma unassigning_cases (raw : value) :
  is_empty_string raw || nullish raw = true <->
  raw = VJson (JStr "") \/ raw = VJson JNull \/ raw = VUndefined.
Proof.
  split.
  - destruct raw as [|[| | |s| |]|]; simpl; try discriminate; auto.
    rewrite orb_false_r. intros Hs. apply String.eqb_eq in Hs. subst. auto.
  - intros [-> | [-> | ->]]; reflexivity.
Qed.

(** [applyAssignment] reads the store and writes nothing. *)
Lemma applyAssignment_reads (task : TaskObject) (raw : value) (st : Store) r st' :
  applyAssignment task raw st = (r, st') ->
  users st' = users st /\ tasks st' = tasks st /\
  exists ops, log st' = log st ++ ops /\ forallb (fun op => negb (is_write op)) ops = true.
Proof.
  unfold applyAssignment.
  destruct (is_empty_string raw || nullish raw).
  { intros [= <- <-]. repeat split. exists []. by rewrite app_nil_r. }
  destruct (ObjectId_isValid raw); simpl.
  2:{ intros [= <- <-]. repeat split. exists []. by rewrite app_nil_r. }
  unfold bind, User_findById.
  destruct (castObjectId raw) as [uid|].
  2:{ intros [= <- <-]. repeat split. exists []. by rewrite app_nil_r. }
  destruct (users st !! uid) as [u|]; intros [= <- <-];
    repeat split; by exists [OpUserFindById uid].
Qed.



Lemma applyAssignment_invalid (task : TaskObject) (raw : value) (st : Store) :
  is_empty_string raw || nullish raw = false ->
  ObjectId_isValid raw = false ->
  applyAssignment task raw st = (Throw InvalidAssigneeId, st).
Proof. intros Hraw Hv. unfold applyAssignment. by rewrite Hraw, Hv. Qed.

Lemma applyAssignment_lookup (task : TaskObject) (raw : value) (st : Store)
    (uid : ObjectId) :
  is_empty_string raw || nullish raw = false ->
  ObjectId_isValid raw = true ->
  castObjectId raw = Some uid ->
  applyAssignment task raw st =
  (match users st !! uid with
   | Some u => Ok (set_assignment (Some uid) (User.name u) task, Some uid)
   | None => Throw AssigneeNotFound
   end, logged (OpUserFindById uid) st).
Proof.
  intros Hraw Hv Hcast. unfold applyAssignment. rewrite Hraw, Hv. simpl.
  unfold bind, User_findById. rewrite Hcast. by destruct (users st !! uid).
Qed.

(** C5.  [applyAssignment] on a Task and a raw assignee identifier, case
    by case.  For [''], [null] or an absent identifier the Task gets
    [assignedUser = null] and [assignedUserName = "unassigned"] and no
    assignee is returned.  An identifier that [ObjectId.isValid] refuses
    fails with InvalidAssigneeId.  One that it accepts and that casts to
    the id of no User fails with AssigneeNotFound; one that casts to the
    id of a User gives the Task that User's id and name and returns the
    id.  One that [ObjectId.isValid] accepts and that does not cast (a
    number, where the validity check is the looser of the two) fails with
    neither of the two errors: the CastError of the lookup escapes.  The
    other paths of the Task are not touched, and the store is only
    read. *)
Theorem C5_applyAssignment (task : TaskObject) (raw : value) (st : Store) :
  (raw = VJson (JStr "") \/ raw = VJson JNull \/ raw = VUndefined ->
   exists task',
     applyAssignment task raw st = (Ok (task', None), st) /\
     o_assignedUser task' = None /\
     o_assignedUserName task' = "unassigned" /\
     task' = set_assignment None "unassigned" task) /\
  (~ (raw = VJson (JStr "") \/ raw = VJson JNull \/ raw = VUndefined) ->
   (ObjectId_isValid raw = false ->
    applyAssignment task raw st = (Throw InvalidAssigneeId, st)) /\
   (forall uid, ObjectId_isValid raw = true -> castObjectId raw = Some uid ->
      (users st !! uid = None ->
       applyAssignment task raw st
       = (Throw AssigneeNotFound, logged (OpUserFindById uid) st)) /\
      (forall u, users st !! uid = Some u ->
       exists task',
         applyAssignment task raw st
         = (Ok (task', Some uid), logged (OpUserFindById uid) st) /\
         o_assignedUser task' = Some uid /\
         o_assignedUserName task' = User.name u /\
         task' = set_assignment (Some uid) (User.name u) task)) /\
   (ObjectId_isValid raw = true -> castObjectId raw = None ->
    applyAssignment task raw st = (Throw CastError, st) /\
    CastError <> InvalidAssigneeId /\ CastError <> AssigneeNotFound)) /\
  (forall r st', applyAssignment task raw st = (r, st') ->
     users st' = users st /\ tasks st' = tasks st /\
     exists ops, log st' = log st ++ ops /\
       forallb (fun op => negb (is_write op)) ops = true).
Proof.
  split; [|split].
  - intros Hraw. apply unassigning_cases in Hraw.
    unfold applyAssignment. rewrite Hraw. by eexists.
  - intros Hraw. rewrite <- unassigning_cases in Hraw.
    apply not_true_is_false in Hraw. split; [|split].
    + by apply applyAssignment_invalid.
    + intros uid Hv Hcast.
      rewrite (applyAssignment_lookup _ _ _ _ Hraw Hv Hcast). split.
      * by intros ->.
      * intros u ->. by eexists.
    + intros Hv Hcast. split; [|done].
      unfold applyAssignment. rewrite Hraw, Hv. simpl.
      unfold bind, User_findById. by rewrite Hcast.
  - apply applyAssignment_reads.
Qed.

End AssignmentFacts.

(** C5, witness: on the sample store, the number 5, which
    [ObjectId.isValid] accepts and the lookup does not cast; and an empty
    identifier, a malformed one, the id of no User and Bob's id. *)
Lemma C5_applyAssignment_witness :
  let task := new_Task (H := Reference.platform) ∅ (Some 0%Z) 0%Z in
  applyAssignment (H := Reference.platform) task (VJson (JNum (Finite 5)))
      Reference.store0
    = (Throw CastError, Reference.store0) /\
  applyAssignment (H := Reference.platform) task (VJson (JStr "")) Reference.store0
    = (Ok (set_assignment None "unassigned" task, None), Reference.store0) /\
  applyAssignment (H := Reference.platform) task (VJson (JStr "xyz")) Reference.store0
    = (Throw InvalidAssigneeId, Reference.store0) /\
  applyAssignment (H := Reference.platform) task
      (VJson (JStr "000000000000000000000009")) Reference.store0
    = (Throw AssigneeNotFound, logged (OpUserFindById 9%N) Reference.store0) /\
  applyAssignment (H := Reference.platform) task
      (VJson (JStr Reference.bob_id)) Reference.store0
    = (Ok (set_assignment (Some 2%N) "Bob" task, Some 2%N),
       logged (OpUserFindById 2%N) Reference.store0).
Proof.
  intros task.
  pose proof (C5_applyAssignment (H := Reference.platform) task) as C5.
  split; [|split; [|split; [|split]]].
  - destruct (C5 (VJson (JNum (Finite 5))) Reference.store0) as (_ & Hsome & _).
    destruct Hsome as (_ & _ & Hloose); [by intros [? | [? | ?]] |].
    by destruct Hloose as [Hrun _].
  - destruct (C5 (VJson (JStr "")) Reference.store0) as [Hnone _].
    destruct Hnone as (task' & Hrun & _ & _ & ->); [by left | exact Hrun].
  - destruct (C5 (VJson (JStr "xyz")) Reference.store0) as (_ & Hsome & _).
    destruct Hsome as [Hbad _]; [by intros [? | [? | ?]] | by apply Hbad].
  - destruct (C5 (VJson (JStr "000000000000000000000009")) Reference.store0)
      as (_ & Hsome & _).
    destruct Hsome as (_ & Hgood & _); [by intros [? | [? | ?]] |].
    by apply (Hgood 9%N).
  - destruct (C5 (VJson (JStr Reference.bob_id)) Reference.store0)
      as (_ & Hsome & _).
    destruct Hsome as (_ & Hgood & _); [by intros [? | [? | ?]] |].
    destruct (Hgood 2%N eq_refl eq_refl) as [_ Hfound].
    destruct (Hfound Reference.bob eq_refl) as (task' & Hrun & _ & _ & ->).
    exact Hrun.
Defined.

Section DeleteUserFacts.
Context `{Platform}.

(** C4.  Deleting an existing User: the response is 204; every Task
    whose [assignedUser] was that User now has [assignedUser = null] and
    [assignedUserName = "unassigned"] and is otherwise as before; the
    other Tasks are as before; no Task refers to the User any more; the
    User's record is gone and the other Users are as before; and the bulk
    update of the Tasks was issued before the deletion of the User. *)
Theorem C4_deleteUser (id : string) (st : Store) (uid : ObjectId) (u : User.doc) :
  ObjectId_isValid (VJson (JStr id)) = true ->
  castObjectId (VJson (JStr id)) = Some uid ->
  users st !! uid = Some u ->
  exists st',
    deleteUser id st = (Respond 204 "No Content" NoData, st') /\
    (forall tid t, tasks st !! tid = Some t ->
       Task.assignedUser t = Some uid ->
       tasks st' !! tid = Some (unassign t) /\
       Task.assignedUser (unassign t) = None /\
       Task.assignedUserName (unassign t) = "unassigned") /\
    (forall tid t, tasks st !! tid = Some t ->
       Task.assignedUser t <> Some uid -> tasks st' !! tid = Some t) /\
    (forall tid, tasks st !! tid = None -> tasks st' !! tid = None) /\
    (forall tid t', tasks st' !! tid = Some t' ->
       Task.assignedUser t' <> Some uid) /\
    size (filter (fun kt => Task.assignedUser kt.2 = Some uid) (tasks st')) = 0 /\
    users st' !! uid = None /\
    users st' = delete uid (users st) /\
    log st' = log st ++ [OpUserFindById uid; OpTaskUpdateMany uid; OpUserDeleteOne uid].
Proof.
  intros Hvalid Hcast Hu.
  unfold deleteUser, handle. rewrite Hvalid. simpl.
  unfold bind, User_findById. rewrite Hcast, Hu. simpl.
  eexists. split; [reflexivity|]. simpl.
  set (f := fun t : Task.doc =>
              if bool_decide (Task.assignedUser t = Some uid) then unassign t else t).
  assert (Hnone : forall tid t', (f <$> tasks st) !! tid = Some t' ->
                    Task.assignedUser t' <> Some uid).
  { intros tid t'. rewrite lookup_fmap.
    destruct (tasks st !! tid) as [t|]; [|done]. simpl. intros [= <-].
    unfold f. case_bool_decide; done. }
  split; [|split; [|split; [|split; [|split; [|split; [|split]]]]]].
  - intros tid t Ht Hmine. split; [|done]. rewrite lookup_fmap, Ht. simpl.
    unfold f. by rewrite bool_decide_eq_true_2.
  - intros tid t Ht Hother. rewrite lookup_fmap, Ht. simpl.
    unfold f. by rewrite bool_decide_eq_false_2.
  - intros tid Ht. by rewrite lookup_fmap, Ht.
  - exact Hnone.
  - apply map_size_empty_iff, map_empty. intros tid.
    apply map_lookup_filter_None. right. intros t' Ht'. by apply (Hnone tid t').
  - apply lookup_delete_eq.
  - reflexivity.
  - rewrite <- !app_assoc. reflexivity.
Qed.

End DeleteUserFacts.

(** C4, witness: deleting Alice from the sample store, where the Task
    [report] is hers. *)
Lemma C4_deleteUser_witness :
  exists st',
    deleteUser (H := Reference.platform) Reference.alice_id Reference.store0
      = (Respond 204 "No Content" NoData, st') /\
    tasks st' !! 161%N = Some (unassign Reference.report) /\
    users st' !! 1%N = None.
Proof.
  destruct (C4_deleteUser (H := Reference.platform) Reference.alice_id
              Reference.store0 1%N Reference.alice eq_refl eq_refl eq_refl)
    as (st' & Hrun & Hmine & _ & _ & _ & _ & Hgone & _).
  exists st'. split; [exact Hrun|]. split; [|exact Hgone].
  by destruct (Hmine 161%N Reference.report eq_refl eq_refl) as [Ht _].
Defined.

Section TaskWriteFacts.
Context `{Platform}.



End TaskWriteFacts.

Section CreateFacts.
Context `{Platform}.






End CreateFacts.

Section PushPullFacts.
Context `{Platform}.






Lemma pulled_not_listed (tid : ObjectId) (u : User.doc) :
  tid ∉ User.pendingTasks (pulled tid u).
Proof. unfold pulled. simpl. rewrite list_elem_of_filter. by intros [? _]. Qed.


End PushPullFacts.

Section UpdateFacts.
Context `{Platform}.


End UpdateFacts.

Section UpdateFailureFacts.
Context `{Platform}.





End UpdateFailureFacts.





Section ReconcileFacts.
Context `{Platform}.

Lemma store_each_cons (f : Task.doc -> Task.doc) ts k t found :
  store_each f ts ((k, t) :: found) = store_each f (<[k := f t]> ts) found.
Proof. reflexivity. Qed.

Lemma for_each_store (f : Task.doc -> Task.doc)
    (found : list (ObjectId * Task.doc)) (st : Store) :
  for_each found (fun kt => Task_store kt.1 (f kt.2)) st =
  (Ok tt,
   {| users := users st;
      tasks := store_each f (tasks st) found;
      log := log st ++ map (fun kt => OpTaskSave kt.1) found |}).
Proof.
  revert st. induction found as [|[k t] found IH]; intros st.
  - simpl. unfold ret. rewrite app_nil_r. by destruct st.
  - simpl. unfold bind at 1. simpl. rewrite IH. simpl.
    by rewrite <- app_assoc.
Qed.

Lemma store_each_other (f : Task.doc -> Task.doc) ts found (k : ObjectId) :
  k ∉ found.*1 -> store_each f ts found !! k = ts !! k.
Proof.
  revert ts. induction found as [|[k' t'] found IH]; intros ts Hk; [done|].
  simpl in Hk. apply not_elem_of_cons in Hk as [Hne Hk].
  rewrite store_each_cons, IH by done. by rewrite lookup_insert_ne.
Qed.

Lemma store_each_found (f : Task.doc -> Task.doc) ts found (k : ObjectId) t :
  NoDup found.*1 -> (k, t) ∈ found ->
  store_each f ts found !! k = Some (f t).
Proof.
  revert ts. induction found as [|[k' t'] found IH]; intros ts Hnd Hin.
  - by apply elem_of_nil in Hin.
  - simpl in Hnd. apply NoDup_cons in Hnd as [Hk' Hnd].
    apply elem_of_cons in Hin as [[= -> ->] | Hin].
    + rewrite store_each_cons, store_each_other by done.
      by rewrite lookup_insert_eq.
    + rewrite store_each_cons. by apply IH.
Qed.

(** One of the two reconciliation blocks of PUT /api/users/:id: the Tasks
    among [ids] (assigned to [a] when [a] is given) are loaded, changed by
    [f] and saved one by one. *)
Lemma reconcile_block (ids : list ObjectId) (a : option ObjectId)
    (f : Task.doc -> Task.doc) (st : Store) :
  exists st' ops,
    when (nonempty ids)
      (do! ts <- Task_find ids a;
       for_each ts (fun kt => Task_store kt.1 (f kt.2))) st = (Ok tt, st') /\
    users st' = users st /\
    log st' = log st ++ ops /\
    (forall k,
       tasks st' !! k =
       match tasks st !! k with
       | Some t => if decide (k ∈ ids /\ assigned_to a t) then Some (f t) else Some t
       | None => None
       end) /\
    (forall k, OpTaskSave k ∈ ops ->
       k ∈ ids /\ exists t, tasks st !! k = Some t /\ assigned_to a t).
Proof.
  destruct (nonempty ids) eqn:Hne.
  2:{ destruct ids; [|discriminate].
    exists st, []. unfold when, nonempty, ret. rewrite app_nil_r.
    split; [done|]. split; [done|]. split; [done|]. split.
    - intros k. destruct (tasks st !! k); [|done].
      case_decide as Hk; [|done]. destruct Hk as [Hk _]. by apply elem_of_nil in Hk.
    - by intros k ?%elem_of_nil. }
  set (found := map_to_list
    (filter (fun kv : ObjectId * Task.doc => kv.1 ∈ ids /\ assigned_to a kv.2)
            (tasks st))).
  assert (Hfound : forall k t, (k, t) ∈ found <->
            tasks st !! k = Some t /\ k ∈ ids /\ assigned_to a t).
  { intros k t. unfold found. rewrite elem_of_map_to_list.
    by rewrite map_lookup_filter_Some. }
  assert (Hnd : NoDup found.*1) by apply NoDup_fst_map_to_list.
  exists {| users := users st;
            tasks := store_each f (tasks st) found;
            log := (log st ++ [OpTaskFind ids a])
                     ++ map (fun kt => OpTaskSave kt.1) found |},
         (OpTaskFind ids a :: map (fun kt => OpTaskSave kt.1) found).
  split; [|split; [done|split; [|split]]].
  - unfold when, bind, Task_find. cbv beta iota. fold found.
    by rewrite for_each_store.
  - simpl. by rewrite <- app_assoc.
  - intros k. simpl. destruct (tasks st !! k) as [t|] eqn:Hk.
    + case_decide as Hsel.
      * apply (store_each_found f _ _ _ _ Hnd). by apply Hfound.
      * rewrite store_each_other; [done|].
        intros ((k' & t') & -> & Hin)%list_elem_of_fmap.
        apply Hfound in Hin as (Hk' & Hids & Ha). simpl in *.
        rewrite Hk in Hk'. injection Hk' as ->. by apply Hsel.
    + rewrite store_each_other; [done|].
      intros ((k' & t') & -> & Hin)%list_elem_of_fmap.
      apply Hfound in Hin as (Hk' & _). simpl in *. congruence.
  - intros k [Hk | Hk]%elem_of_cons; [discriminate|].
    apply list_elem_of_fmap in Hk as ((k' & t') & [= ->] & Hin).
    apply Hfound in Hin as (Hk' & Hids & Ha). eauto.
Qed.

End ReconcileFacts.
Section UserUpdateFacts.
Context `{Platform}.

Lemma no_other_with_email (uid : ObjectId) (e : string) (st : Store) :
  (forall k u, users st !! k = Some u -> k <> uid -> User.email u <> e) ->
  User_findOne_other_with_email uid e st
  = (Ok false, logged (OpUserFindOneByEmail uid e) st).
Proof.
  intros Hnone. unfold User_findOne_other_with_email. f_equal. f_equal.
  apply bool_decide_eq_false_2. intros Hne. apply Hne.
  apply map_empty. intros k. apply map_lookup_filter_None. right.
  intros u Hu [Hk He]. by apply (Hnone k u).
Qed.

Lemma filter_fmap_comm {A B} (f : A -> B) (P : B -> Prop) (Q : A -> Prop)
    `{!forall b, Decision (P b)} `{!forall a, Decision (Q a)} (l : list A) :
  (forall a, P (f a) <-> Q a) ->
  filter P (f <$> l) = f <$> filter Q l.
Proof.
  intros HPQ. induction l as [|a l IH]; [done|].
  rewrite fmap_cons, !filter_cons.
  destruct (decide (P (f a))) as [HP | HP], (decide (Q a)) as [HQ | HQ];
    rewrite ?fmap_cons, IH; try done; exfalso; by apply HPQ in HP || apply HPQ in HQ.
Qed.

(** The query of a reconciliation block casts its values first; the
    block is guarded by the length of a list as long as the values. *)
Lemma reconcile_block_in {C} (guard : list C) (raw : list value)
    (ids : list ObjectId) (a : option ObjectId) (f : Task.doc -> Task.doc)
    (st : Store) :
  length guard = length raw ->
  cast_ids raw = Some ids ->
  when (nonempty guard)
    (do! ts <- Task_find_in raw a;
     for_each ts (fun kt => Task_store kt.1 (f kt.2))) st
  = when (nonempty ids)
      (do! ts <- Task_find ids a;
       for_each ts (fun kt => Task_store kt.1 (f kt.2))) st.
Proof.
  intros Hlen Hc.
  assert (nonempty guard = nonempty ids) as ->.
  { apply length_mapM in Hc. rewrite <- Hlen in Hc. by destruct guard, ids. }
  unfold when. destruct (nonempty ids); [|done].
  unfold bind, Task_find_in. by rewrite Hc.
Qed.

Lemma assign_unassign (uid : ObjectId) (n : string) (t : Task.doc) :
  assign uid n (unassign t) = assign uid n t.
Proof. reflexivity. Qed.

(** The casts of a sublist of texts that all cast. *)
Lemma cast_sublist (texts : list string) (new : list ObjectId)
    (P : string -> Prop) `{!forall s, Decision (P s)} :
  Forall2 (fun s x => castObjectId (VJson (JStr s)) = Some x) texts new ->
  exists ids,
    cast_ids ((fun s => VJson (JStr s)) <$> filter P texts) = Some ids /\
    forall k, k ∈ ids <->
      exists s, s ∈ texts /\ P s /\ castObjectId (VJson (JStr s)) = Some k.
Proof.
  induction 1 as [|s x texts new Hs _ IH].
  - exists []. split; [done|]. intros k. split.
    + by intros ?%elem_of_nil.
    + by intros (s & ?%elem_of_nil & _).
  - destruct IH as (ids & Hids & Hin). rewrite filter_cons.
    destruct (decide (P s)) as [HP | HP].
    + exists (x :: ids). split.
      * unfold cast_ids in *. apply mapM_Some_2. rewrite fmap_cons.
        constructor; [exact Hs|]. by apply mapM_Some_1.
      * intros k. rewrite elem_of_cons, Hin. split.
        -- intros [-> | (s' & ? & ? & ?)].
           ++ exists s. by rewrite elem_of_cons; auto.
           ++ exists s'. rewrite elem_of_cons. auto.
        -- intros (s' & [-> | Hs']%elem_of_cons & HP' & Hc).
           ++ left. congruence.
           ++ right. eauto.
    + exists ids. split; [done|]. intros k. rewrite Hin. split.
      * intros (s' & ? & ? & ?). exists s'. rewrite elem_of_cons. auto.
      * intros (s' & [-> | Hs']%elem_of_cons & HP' & Hc); [done|]. eauto.
Qed.

(** The run of PUT /api/users/:id that reaches the save, when the new
    list is an array of texts that cast to ids and every id of the old
    list casts back from its text.  [R] are the ids of the old list whose
    text is not in the new list; [A] are the ids that the elements of the
    new list cast to, for the elements that are the text of no id of the
    old list. *)
Lemma putUser_saved (id : string) (body : UserBody) (st : Store)
    (uid : ObjectId) (user : User.doc) (n e : string)
    (texts : list string) (new : list ObjectId) :
  ObjectId_isValid (VJson (JStr id)) = true ->
  castObjectId (VJson (JStr id)) = Some uid ->
  truthy (b_name body) = true ->
  truthy (b_email body) = true ->
  users st !! uid = Some user ->
  (forall k u, users st !! k = Some u -> k <> uid ->
     User.email u <> toLowerCase (String_ (b_email body))) ->
  UserSchema_name (b_name body) = Some n ->
  UserSchema_email (b_email body) = Some e ->
  array_or_empty (b_pendingTasks body) = JStr <$> texts ->
  Forall2 (fun s x => castObjectId (VJson (JStr s)) = Some x) texts new ->
  (forall y, y ∈ User.pendingTasks user ->
     castObjectId (VJson (JStr (ObjectId_toString y))) = Some y) ->
  let prev := User.pendingTasks user in
  let user' := {| User.name := n; User.email := e; User.pendingTasks := new |} in
  exists st' ops (R A : list ObjectId),
    putUser id body st = (Respond 200 "OK" (UserData uid user'), st') /\
    users st' = <[uid := user']> (users st) /\
    log st' = log st ++ ops /\
    (forall k, k ∈ R <-> k ∈ prev /\ ObjectId_toString k ∉ texts) /\
    (forall k, k ∈ A <->
       exists s, s ∈ texts /\ (s ∉ ObjectId_toString <$> prev) /\
         castObjectId (VJson (JStr s)) = Some k) /\
    (forall k,
       tasks st' !! k =
       match tasks st !! k with
       | Some t =>
           if decide (k ∈ A) then Some (assign uid n t)
           else if decide (k ∈ R /\ Task.assignedUser t = Some uid)
                then Some (unassign t)
                else Some t
       | None => None
       end) /\
    (forall k, OpTaskSave k ∈ ops ->
       is_Some (tasks st !! k) /\
       (k ∈ A \/
        k ∈ R /\ exists t, tasks st !! k = Some t /\ Task.assignedUser t = Some uid)).
Proof.
  intros Hvalid Hcast Hname Hemail Huser Hnodup Hn He Harr Hnew Hback prev user'.
  set (R := filter (fun x => ObjectId_toString x ∉ texts) prev).
  destruct (cast_sublist texts new (fun s => s ∉ ObjectId_toString <$> prev) Hnew)
    as (A & HcastA & HA).
  set (st0 := logged (OpUserSave uid)
                (with_users (<[uid := user']> (users st))
                   (logged (OpUserFindOneByEmail uid
                              (toLowerCase (String_ (b_email body))))
                      (logged (OpUserFindById uid) st)))).
  destruct (reconcile_block R (Some uid) unassign st0)
    as (st1 & ops1 & Hrun1 & Hus1 & Hlog1 & Hts1 & Hops1).
  destruct (reconcile_block A None (assign uid n) st1)
    as (st2 & ops2 & Hrun2 & Hus2 & Hlog2 & Hts2 & Hops2).
  exists st2,
    ([OpUserFindById uid;
      OpUserFindOneByEmail uid (toLowerCase (String_ (b_email body)));
      OpUserSave uid] ++ ops1 ++ ops2), R, A.
  assert (Hsaved : cast_ids (VJson <$> (JStr <$> texts)) = Some new).
  { unfold cast_ids. apply mapM_Some_2. rewrite <- list_fmap_compose.
    apply Forall2_fmap_l. exact Hnew. }
  assert (HnewSet : (fun j => String_ (VJson j)) <$> (JStr <$> texts) = texts).
  { rewrite <- list_fmap_compose. rewrite <- (list_fmap_id texts) at 2.
    by apply list_fmap_ext. }
  assert (HtoRemove :
    filter (fun s => s ∉ texts) (ObjectId_toString <$> prev)
    = ObjectId_toString <$> R).
  { by apply filter_fmap_comm. }
  assert (HcastR :
    cast_ids ((fun s => VJson (JStr s)) <$> (ObjectId_toString <$> R)) = Some R).
  { unfold cast_ids. apply mapM_Some_2. rewrite <- list_fmap_compose.
    apply Forall2_fmap_l, Forall2_same_length_lookup. split; [done|].
    intros i x y Hx Hy. rewrite Hx in Hy. injection Hy as <-. simpl.
    apply Hback. apply list_elem_of_lookup_2 in Hx.
    unfold R in Hx. by apply list_elem_of_filter in Hx as [_ Hx]. }
  assert (HtoAdd :
    VJson <$> filter (fun j => String_ (VJson j) ∉ ObjectId_toString <$> prev)
                (JStr <$> texts)
    = (fun s => VJson (JStr s)) <$>
        filter (fun s => s ∉ ObjectId_toString <$> prev) texts).
  { rewrite (filter_fmap_comm JStr _
               (fun s => s ∉ ObjectId_toString <$> prev)) by done.
    by rewrite <- list_fmap_compose. }
  split; [|split; [|split; [|split; [|split; [|split]]]]].
  - unfold putUser, handle. rewrite Hvalid, Hname, Hemail. cbn [negb orb].
    unfold bind at 1. unfold User_findById. rewrite Hcast, Huser.
    cbv beta iota. unfold bind at 1.
    rewrite (no_other_with_email uid _ (logged (OpUserFindById uid) st) Hnodup).
    unfold bind at 1. unfold User_save. rewrite Hn, He, Harr, Hsaved.
    fold prev user'. simpl users. simpl tasks. simpl log. fold st0.
    rewrite HnewSet, HtoRemove.
    unfold bind at 1.
    rewrite (reconcile_block_in _ _ _ _ _ _ (eq_sym (length_fmap _ _)) HcastR), Hrun1.
    unfold bind at 1. simpl User.name.
    rewrite <- HtoAdd in HcastA.
    rewrite (reconcile_block_in _ _ _ _ _ _ (eq_sym (length_fmap _ _)) HcastA), Hrun2.
    reflexivity.
  - by rewrite Hus2, Hus1.
  - rewrite Hlog2, Hlog1. simpl. by rewrite <- !app_assoc.
  - intros k. unfold R. rewrite list_elem_of_filter. tauto.
  - exact HA.
  - intros k. specialize (Hts1 k). specialize (Hts2 k).
    change (tasks st0 !! k) with (tasks st !! k) in Hts1.
    destruct (tasks st !! k) as [t|]; [|by rewrite Hts1 in Hts2].
    destruct (decide (k ∈ A)) as [HkA | HkA].
    + destruct (decide (k ∈ R /\ assigned_to (Some uid) t)) as [HkR | HkR];
        rewrite Hts1 in Hts2; rewrite decide_True in Hts2 by done; done.
    + destruct (decide (k ∈ R /\ Task.assignedUser t = Some uid)) as [HkR | HkR].
      * rewrite decide_True in Hts1 by done. rewrite Hts1 in Hts2.
        rewrite decide_False in Hts2 by tauto. done.
      * rewrite decide_False in Hts1 by done. rewrite Hts1 in Hts2.
        rewrite decide_False in Hts2 by tauto. done.
  - intros k Hin. rewrite !elem_of_app in Hin.
    destruct Hin as [Hin | [Hin | Hin]].
    + rewrite !elem_of_cons in Hin. rewrite elem_of_nil in Hin.
      by destruct Hin as [? | [? | [? | ?]]].
    + apply Hops1 in Hin as (HkR & t & Ht & Hmine).
      change (tasks st0 !! k) with (tasks st !! k) in Ht. split; [by eexists|].
      right. split; [done|]. by exists t.
    + apply Hops2 in Hin as (HkA & t1 & Ht1 & _). split; [|by left].
      specialize (Hts1 k). change (tasks st0 !! k) with (tasks st !! k) in Hts1.
      destruct (tasks st !! k); [by eexists|]. congruence.
Qed.


(** C9 (as amended).  An update of a User that reaches the save, with a
    replacement [pendingTasks] list given as an array of id texts (the
    empty list when the field is not an array).  The saved User has the
    ids that the texts cast to.  The handler compares the two lists as
    texts, the old ids by their [String(id)].  For every existing Task:
    if an element of the new list that is the text of no id of the old
    list casts to its id, the Task is assigned to this User, under the
    User's saved name, also when its id is in the old list under another
    spelling; otherwise, if its id is in the old list and the text of the
    id is not in the new list, the Task gets [assignedUser = null] and
    [assignedUserName = "unassigned"] when it is assigned to this User,
    and is left as stored, with no save, when it is not; otherwise (the
    text of its id is in both lists, or its id is in neither) the Task is
    as stored and no save of it is issued.  In each case the other paths
    of the Task are kept.  An id of no Task stays the id of no Task, with
    no save and no error. *)
Theorem C9_user_update_reconciles (id : string) (body : UserBody) (st : Store)
    (uid : ObjectId) (user : User.doc) (n e : string)
    (texts : list string) (new : list ObjectId) :
  ObjectId_isValid (VJson (JStr id)) = true ->
  castObjectId (VJson (JStr id)) = Some uid ->
  truthy (b_name body) = true ->
  truthy (b_email body) = true ->
  users st !! uid = Some user ->
  (forall k u, users st !! k = Some u -> k <> uid ->
     User.email u <> toLowerCase (String_ (b_email body))) ->
  UserSchema_name (b_name body) = Some n ->
  UserSchema_email (b_email body) = Some e ->
  array_or_empty (b_pendingTasks body) = JStr <$> texts ->
  Forall2 (fun s x => castObjectId (VJson (JStr s)) = Some x) texts new ->
  (forall y, y ∈ User.pendingTasks user ->
     castObjectId (VJson (JStr (ObjectId_toString y))) = Some y) ->
  let prev := User.pendingTasks user in
  let added tid :=
    exists s, s ∈ texts /\ (s ∉ ObjectId_toString <$> prev) /\
      castObjectId (VJson (JStr s)) = Some tid in
  exists st' ops user',
    putUser id body st = (Respond 200 "OK" (UserData uid user'), st') /\
    users st' !! uid = Some user' /\
    User.pendingTasks user' = new /\ User.name user' = n /\ User.email user' = e /\
    log st' = log st ++ ops /\
    (forall tid t, tasks st !! tid = Some t ->
       (added tid ->
          exists t', tasks st' !! tid = Some t' /\
            Task.assignedUser t' = Some uid /\ Task.assignedUserName t' = n /\
            same_apart_from_assignee t t') /\
       (~ added tid -> tid ∈ prev -> ObjectId_toString tid ∉ texts ->
          (Task.assignedUser t = Some uid ->
             exists t', tasks st' !! tid = Some t' /\
               Task.assignedUser t' = None /\
               Task.assignedUserName t' = "unassigned" /\
               same_apart_from_assignee t t') /\
          (Task.assignedUser t <> Some uid ->
             tasks st' !! tid = Some t /\ OpTaskSave tid ∉ ops)) /\
       (~ added tid -> (tid ∈ prev -> ObjectId_toString tid ∈ texts) ->
          tasks st' !! tid = Some t /\ OpTaskSave tid ∉ ops)) /\
    (forall tid, tasks st !! tid = None ->
       tasks st' !! tid = None /\ OpTaskSave tid ∉ ops).
Proof.
  intros Hvalid Hcast Hname Hemail Huser Hnodup Hn He Harr Hnew Hback prev added.
  destruct (putUser_saved id body st uid user n e texts new Hvalid Hcast Hname
              Hemail Huser Hnodup Hn He Harr Hnew Hback)
    as (st' & ops & R & A & Hrun & Hus & Hlog & HR & HA & Hts & Hops).
  exists st', ops, {| User.name := n; User.email := e; User.pendingTasks := new |}.
  split; [exact Hrun|]. split; [by rewrite Hus, lookup_insert_eq|].
  split; [done|]. split; [done|]. split; [done|]. split; [exact Hlog|]. split.
  - intros tid t Ht. specialize (Hts tid). rewrite Ht in Hts.
    split; [|split].
    + intros Hadd. apply HA in Hadd. rewrite decide_True in Hts by done.
      exists (assign uid n t). by repeat split.
    + intros Hadd Hp Htext.
      assert (HtA : tid ∉ A) by (by rewrite HA).
      assert (HtR : tid ∈ R) by (by apply HR).
      rewrite decide_False in Hts by done. split.
      * intros Hmine. rewrite decide_True in Hts by done.
        exists (unassign t). by repeat split.
      * intros Hother. rewrite decide_False in Hts by tauto.
        split; [done|]. intros Hin. apply Hops in Hin as (_ & [? | Hrem]); [done|].
        destruct Hrem as (_ & t' & Ht' & Hmine). congruence.
    + intros Hadd Hboth.
      assert (HtA : tid ∉ A) by (by rewrite HA).
      assert (HtR : tid ∉ R) by (rewrite HR; tauto).
      rewrite !decide_False in Hts by tauto.
      split; [done|]. intros Hin. apply Hops in Hin as (_ & [? | [? _]]); done.
  - intros tid Hnone. specialize (Hts tid). rewrite Hnone in Hts.
    split; [done|]. intros Hin. apply Hops in Hin as [[t Ht] _]. congruence.
Qed.

End UserUpdateFacts.

(** Alice is the only User of the sample stores with Alice's email. *)
Lemma only_alice (k : ObjectId) (u : User.doc) :
  users Reference.store0 !! k = Some u -> k <> 1%N -> User.email u <> "alice@x.com".
Proof.
  intros Hu Hk. simpl in Hu.
  apply lookup_insert_Some in Hu as [[<- <-] | [_ Hu]]; [done|].
  by apply lookup_singleton_Some in Hu as [<- <-].
Qed.

(** C9, witness: on the sample store, Alice's list is replaced by a list
    without her Task [report] and with the id of no Task. *)
Lemma C9_user_update_reconciles_witness :
  exists st' t',
    (putUser (H := Reference.platform) Reference.alice_id
       Reference.alice_drops_report Reference.store0).2 = st' /\
    tasks st' !! 161%N = Some t' /\
    Task.assignedUser t' = None /\ Task.assignedUserName t' = "unassigned" /\
    tasks st' !! 7%N = None.
Proof.
  edestruct (C9_user_update_reconciles (H := Reference.platform)
               Reference.alice_id Reference.alice_drops_report Reference.store0
               1%N Reference.alice "Alice" "alice@x.com"
               ["000000000000000000000007"] [7%N])
    as (st' & ops & user' & Hrun & _ & _ & _ & _ & _ & Htasks & Hnone).
  - reflexivity.
  - reflexivity.
  - reflexivity.
  - reflexivity.
  - reflexivity.
  - intros k u Hu Hk. vm_compute toLowerCase. by apply (only_alice k u).
  - vm_compute. reflexivity.
  - vm_compute. reflexivity.
  - reflexivity.
  - by repeat constructor.
  - intros y Hy. apply list_elem_of_singleton in Hy as ->. reflexivity.
  - destruct (Htasks 161%N Reference.report eq_refl) as (_ & Hremoved & _).
    destruct Hremoved as [Hmine _].
    + intros (s & Hs & _ & Hc). apply list_elem_of_singleton in Hs as ->.
      vm_compute in Hc. discriminate.
    + by apply list_elem_of_singleton.
    + intros Hin. apply list_elem_of_singleton in Hin. vm_compute in Hin.
      discriminate.
    + destruct (Hmine eq_refl) as (t' & Ht' & Hnobody & Hunassigned & _).
      exists st', t'. split; [by rewrite Hrun|]. split; [exact Ht'|].
      split; [exact Hnobody|]. split; [exact Hunassigned|].
      by destruct (Hnone 7%N eq_refl) as [Hgone _].
Defined.

(** C9, counterexample: Alice's list is sent again with the id of her
    Task [report] spelled in upper case.  The id is in the old list and
    in the saved new list, and yet the Task is written, twice: it is
    unassigned as removed and assigned again as added. *)
Lemma C9_counterexample :
  let run := putUser (H := Reference.platform) Reference.alice_id
               Reference.alice_respells_report Reference.store0 in
  exists user',
    run.1 = Respond 200 "OK" (UserData 1%N user') /\
    161%N ∈ User.pendingTasks Reference.alice /\
    161%N ∈ User.pendingTasks user' /\
    log run.2 = [OpUserFindById 1%N; OpUserFindOneByEmail 1%N "alice@x.com";
                 OpUserSave 1%N;
                 OpTaskFind [161%N] (Some 1%N); OpTaskSave 161%N;
                 OpTaskFind [161%N] None; OpTaskSave 161%N] /\
    OpTaskSave 161%N ∈ log run.2.
Proof.
  intros run.
  exists {| User.name := "Alice"; User.email := "alice@x.com";
            User.pendingTasks := [161%N] |}.
  assert (Hlog : log run.2 =
    [OpUserFindById 1%N; OpUserFindOneByEmail 1%N "alice@x.com";
     OpUserSave 1%N;
     OpTaskFind [161%N] (Some 1%N); OpTaskSave 161%N;
     OpTaskFind [161%N] None; OpTaskSave 161%N]) by (vm_compute; reflexivity).
  split; [vm_compute; reflexivity|].
  split; [by apply list_elem_of_singleton|].
  split; [by apply list_elem_of_singleton|].
  split; [exact Hlog|].
  rewrite Hlog. rewrite !elem_of_cons. auto 10.
Qed.

(* ===================================================================== *)
(** * Further properties of query parsing *)
(* ===================================================================== *)

Section PaginationFacts.
Context `{Platform}.

Lemma clamp_cases (raw : option string) (otherwise : number) :
  (exists x, to_number raw = Finite x /\ (0 <= x)%Q /\ clamp raw otherwise = Finite x) \/
  (exists x, to_number raw = Finite x /\ (x < 0)%Q /\ clamp raw otherwise = Finite 0) \/
  (Number_isFinite (to_number raw) = false /\ clamp raw otherwise = otherwise).
Proof.
  unfold clamp. destruct (to_number raw) as [|neg|x]; simpl; auto.
  destruct (Qle_bool 0 x) eqn:Hx.
  - left. exists x. apply Qle_bool_iff in Hx. auto.
  - right. left. exists x. split; [done|]. split; [|done].
    apply Qnot_le_lt. intros Hle. apply Qle_bool_iff in Hle. congruence.
Qed.

Lemma clamp_non_negative (raw : option string) (otherwise : number) :
  non_negative otherwise -> non_negative (clamp raw otherwise).
Proof.
  intros Hd.
  destruct (clamp_cases raw otherwise)
    as [(x & _ & Hx & ->) | [(x & _ & _ & ->) | [_ ->]]]; [| |done].
  - by exists x.
  - exists 0%Q. split; [done|]. apply Qle_refl.
Qed.

Lemma non_negative_zero : non_negative (Finite 0).
Proof. exists 0%Q. split; [done|]. apply Qle_refl. Qed.

Lemma non_negative_hundred : non_negative (Finite 100).
Proof. exists 100%Q. split; [done|]. done. Qed.

Lemma result_bind_Ok {A B} (r : result A) (k : A -> result B) (b : B) :
  result_bind r k = Ok b -> exists a, r = Ok a /\ k a = Ok b.
Proof. destruct r as [a|e]; simpl; [eauto | discriminate]. Qed.

Lemma parseQueryWithFilterAlias_fields (q : gmap string string) dl d :
  parseQueryWithFilterAlias q dl = Ok d ->
  skip d = clamp (q !! "skip") (Finite 0) /\
  limit d = clamp (q !! "limit") (default_limit dl) /\
  count d = count_flag (q !! "count").
Proof.
  unfold parseQueryWithFilterAlias. intros Hd.
  apply result_bind_Ok in Hd as (w & _ & Hd).
  apply result_bind_Ok in Hd as (s1 & _ & Hd).
  apply result_bind_Ok in Hd as (s2 & _ & Hd). by injection Hd as <-.
Qed.

Lemma parseQueryParams_fields (q : gmap string string) dl d :
  parseQueryParams q dl = Ok d ->
  skip d = clamp (q !! "skip") (Finite 0) /\
  limit d = clamp (q !! "limit") (default_limit dl) /\
  count d = count_flag (q !! "count").
Proof.
  unfold parseQueryParams. intros Hd.
  apply result_bind_Ok in Hd as (w & _ & Hd).
  apply result_bind_Ok in Hd as (s1 & _ & Hd).
  apply result_bind_Ok in Hd as (s2 & _ & Hd). by injection Hd as <-.
Qed.

Lemma tasks_list_query_fields (q : gmap string string) d :
  tasks_list_query q = Ok d ->
  skip d = clamp (q !! "skip") (Finite 0) /\
  limit d = clamp (q !! "limit") (Finite 100) /\
  count d = count_flag (q !! "count").
Proof.
  unfold tasks_list_query. intros Hd.
  apply result_bind_Ok in Hd as (w & _ & Hd).
  apply result_bind_Ok in Hd as (s1 & _ & Hd).
  apply result_bind_Ok in Hd as (s2 & _ & Hd).
  destruct (move_id _ _). by injection Hd as <-.
Qed.

Lemma users_list_query_fields (q : gmap string string) d :
  users_list_query q = Ok d ->
  skip d = clamp (q !! "skip") (Finite 0) /\
  limit d = clamp (q !! "limit") (Finite 0) /\
  count d = count_flag (q !! "count").
Proof.
  unfold users_list_query. intros Hd.
  apply result_bind_Ok in Hd as (w & _ & Hd).
  apply result_bind_Ok in Hd as (s1 & _ & Hd).
  apply result_bind_Ok in Hd as (s2 & _ & Hd).
  destruct (move_id _ _). by injection Hd as <-.
Qed.

(** Whichever of the four built [d], its pagination fields are clamped
    raw values, with some default limit. *)
Lemma descriptor_fields (q : gmap string string) dl d :
  parseQueryWithFilterAlias q dl = Ok d \/ parseQueryParams q dl = Ok d \/
  tasks_list_query q = Ok d \/ users_list_query q = Ok d ->
  skip d = clamp (q !! "skip") (Finite 0) /\
  count d = count_flag (q !! "count") /\
  exists l, limit d = clamp (q !! "limit") l /\
    (l = default_limit dl \/ l = Finite 100 \/ l = Finite 0).
Proof.
  intros [Hd | [Hd | [Hd | Hd]]].
  - destruct (parseQueryWithFilterAlias_fields _ _ _ Hd) as (? & ? & ?); eauto 6.
  - destruct (parseQueryParams_fields _ _ _ Hd) as (? & ? & ?); eauto 6.
  - destruct (tasks_list_query_fields _ _ Hd) as (? & ? & ?); eauto 7.
  - destruct (users_list_query_fields _ _ Hd) as (? & ? & ?); eauto 7.
Qed.

(** X1.  In every descriptor that the two parse functions and the two
    list routes produce, [skip] and [limit] are finite numbers that are
    not negative (for the parse functions, provided the caller's default
    limit, when given, is such a number): a negative raw value gives 0, and
    a raw [skip] that is absent or not a finite number gives 0. *)
Theorem X1_pagination_never_negative (q : gmap string string)
    (dl : option number) (d : QueryDescriptor) :
  (forall l, dl = Some l -> non_negative l) ->
  parseQueryWithFilterAlias q dl = Ok d \/ parseQueryParams q dl = Ok d \/
  tasks_list_query q = Ok d \/ users_list_query q = Ok d ->
  non_negative (skip d) /\ non_negative (limit d) /\
  (forall x, to_number (q !! "skip") = Finite x -> (x < 0)%Q ->
     skip d = Finite 0) /\
  (forall x, to_number (q !! "limit") = Finite x -> (x < 0)%Q ->
     limit d = Finite 0) /\
  (Number_isFinite (to_number (q !! "skip")) = false -> skip d = Finite 0).
Proof.
  intros Hdl Hd.
  destruct (descriptor_fields _ _ _ Hd) as (Hskip & _ & l & Hlimit & Hl).
  assert (Hnn : non_negative l).
  { destruct Hl as [-> | [-> | ->]];
      [|apply non_negative_hundred|apply non_negative_zero].
    destruct dl as [l|]; [by apply Hdl | apply non_negative_zero]. }
  rewrite Hskip, Hlimit.
  split; [apply clamp_non_negative, non_negative_zero|].
  split; [by apply clamp_non_negative|].
  assert (Hneg : forall raw o x, to_number raw = Finite x -> (x < 0)%Q ->
                   clamp raw o = Finite 0).
  { intros raw o x Hx Hlt. unfold clamp. rewrite Hx. simpl.
    destruct (Qle_bool 0 x) eqn:Hle; [|done].
    apply Qle_bool_iff in Hle. exfalso. by apply (Qlt_not_le _ _ Hlt). }
  split; [apply Hneg|]. split; [apply Hneg|].
  intros Hnf. unfold clamp. by rewrite Hnf.
Qed.

Lemma clamp_empty (otherwise : number) : clamp (Some "") otherwise = Finite 0.
Proof. reflexivity. Qed.

(** X24.  The default limit.  When the raw [limit] is absent or is not a
    finite number, the task list takes 100, the user list takes 0 and the
    parse functions take the caller's default, 0 when there is none.  An
    empty [limit] is not absent: it is the number 0, so the limit is 0
    also on the task list. *)
Theorem X24_default_limits (q : gmap string string) (d : QueryDescriptor) :
  (Number_isFinite (to_number (q !! "limit")) = false ->
   (tasks_list_query q = Ok d -> limit d = Finite 100) /\
   (users_list_query q = Ok d -> limit d = Finite 0) /\
   (forall dl, parseQueryWithFilterAlias q dl = Ok d \/ parseQueryParams q dl = Ok d ->
      limit d = default_limit dl)) /\
  (q !! "limit" = None -> Number_isFinite (to_number (q !! "limit")) = false) /\
  (q !! "limit" = Some "" ->
   tasks_list_query q = Ok d \/ users_list_query q = Ok d -> limit d = Finite 0).
Proof.
  split; [|split].
  - intros Hnf. split; [|split].
    + intros Hd. destruct (tasks_list_query_fields _ _ Hd) as (_ & -> & _).
      unfold clamp. by rewrite Hnf.
    + intros Hd. destruct (users_list_query_fields _ _ Hd) as (_ & -> & _).
      unfold clamp. by rewrite Hnf.
    + intros dl [Hd | Hd].
      * destruct (parseQueryWithFilterAlias_fields _ _ _ Hd) as (_ & -> & _).
        unfold clamp. by rewrite Hnf.
      * destruct (parseQueryParams_fields _ _ _ Hd) as (_ & -> & _).
        unfold clamp. by rewrite Hnf.
  - by intros ->.
  - intros Hempty [Hd | Hd].
    + destruct (tasks_list_query_fields _ _ Hd) as (_ & -> & _).
      rewrite Hempty. apply clamp_empty.
    + destruct (users_list_query_fields _ _ Hd) as (_ & -> & _).
      rewrite Hempty. apply clamp_empty.
Qed.

End PaginationFacts.

(** X1, witness: [?skip=-3&limit=abc] on the task list. *)
Lemma X1_pagination_never_negative_witness :
  exists d,
    tasks_list_query (H := Reference.platform) Reference.odd_page = Ok d /\
    non_negative (skip d) /\ non_negative (limit d) /\ skip d = Finite 0.
Proof.
  eexists. split; [reflexivity|].
  destruct (X1_pagination_never_negative (H := Reference.platform)
              Reference.odd_page None
              {| where_ := VJson (JObj ∅); sort := VUndefined; select := VUndefined;
                 skip := Finite 0; limit := Finite 100; count := false |})
    as (Hs & Hl & Hneg & _).
  - intros l Hl. discriminate.
  - right. right. left. reflexivity.
  - split; [exact Hs|]. split; [exact Hl|].
    apply (Hneg (-3)%Q); reflexivity.
Defined.

Section CountFacts.
Context `{Platform}.

Lemma toLowerCase_char_letter (c l u : ascii) :
  (65 <= code u <= 90)%N -> code l = (code u + 32)%N ->
  toLowerCase_char c = l <-> c = l \/ c = u.
Proof.
  intros Hu Hl. unfold toLowerCase_char, code in *.
  assert (Hinj : forall a b, N_of_ascii a = N_of_ascii b -> a = b).
  { intros a b Hab. by rewrite <- (ascii_N_embedding a), <- (ascii_N_embedding b), Hab. }
  pose proof (N_ascii_bounded c) as Hc.
  destruct ((65 <=? N_of_ascii c)%N && (N_of_ascii c <=? 90)%N
            || (192 <=? N_of_ascii c)%N && (N_of_ascii c <=? 222)%N
               && negb (N_of_ascii c =? 215)%N) eqn:Hcase.
  - assert (Hrange : (65 <= N_of_ascii c <= 90)%N \/
                     (192 <= N_of_ascii c <= 222)%N).
    { apply orb_prop in Hcase as [Hc1 | Hc1]; apply andb_prop in Hc1 as [Hc1 Hc2].
      - apply N.leb_le in Hc1, Hc2. lia.
      - apply andb_prop in Hc1 as [Hc1 Hc3]. apply N.leb_le in Hc1, Hc3. lia. }
    split.
    + intros <-. right. apply Hinj.
      rewrite N_ascii_embedding in Hl by lia. lia.
    + intros [-> | ->].
      * exfalso. lia.
      * apply Hinj. rewrite N_ascii_embedding by lia. lia.
  - split; [auto|]. intros [-> | ->]; [done|].
    exfalso. apply orb_false_elim in Hcase as [Hc1 _].
    apply andb_false_iff in Hc1 as [Hc1 | Hc1]; apply N.leb_gt in Hc1; lia.
Qed.

(** [s.toLowerCase() === 'true']: the sixteen spellings of [true]. *)
Lemma toLowerCase_true (s : string) :
  toLowerCase s = "true" <->
  exists c1 c2 c3 c4,
    s = String c1 (String c2 (String c3 (String c4 ""))) /\
    (c1 = "t" \/ c1 = "T")%char /\ (c2 = "r" \/ c2 = "R")%char /\
    (c3 = "u" \/ c3 = "U")%char /\ (c4 = "e" \/ c4 = "E")%char.
Proof.
  assert (Ht := fun c => toLowerCase_char_letter c "t" "T" ltac:(vm_compute; split; discriminate) eq_refl).
  assert (Hr := fun c => toLowerCase_char_letter c "r" "R" ltac:(vm_compute; split; discriminate) eq_refl).
  assert (Hu := fun c => toLowerCase_char_letter c "u" "U" ltac:(vm_compute; split; discriminate) eq_refl).
  assert (He := fun c => toLowerCase_char_letter c "e" "E" ltac:(vm_compute; split; discriminate) eq_refl).
  unfold toLowerCase. split.
  - destruct s as [|c1 [|c2 [|c3 [|c4 [|c5 s]]]]]; simpl; try discriminate.
    intros [= H1 H2 H3 H4]. exists c1, c2, c3, c4.
    rewrite <- Ht, <- Hr, <- Hu, <- He. done.
  - intros (c1 & c2 & c3 & c4 & -> & H1 & H2 & H3 & H4). simpl.
    apply Ht in H1. apply Hr in H2. apply Hu in H3. apply He in H4.
    by rewrite H1, H2, H3, H4.
Qed.


(** X2.  In every descriptor that the two parse functions and the two
    list routes produce, [count] is true exactly when the raw [count] is
    present and is one of the sixteen letter-case spellings of [true];
    an absent [count] gives false. *)
Theorem X2_count_only_for_true (q : gmap string string) (dl : option number)
    (d : QueryDescriptor) :
  parseQueryWithFilterAlias q dl = Ok d \/ parseQueryParams q dl = Ok d \/
  tasks_list_query q = Ok d \/ users_list_query q = Ok d ->
  (count d = true <->
   exists c1 c2 c3 c4,
     q !! "count" = Some (String c1 (String c2 (String c3 (String c4 "")))) /\
     (c1 = "t" \/ c1 = "T")%char /\ (c2 = "r" \/ c2 = "R")%char /\
     (c3 = "u" \/ c3 = "U")%char /\ (c4 = "e" \/ c4 = "E")%char) /\
  (q !! "count" = None -> count d = false).
Proof.
  intros Hd. destruct (descriptor_fields _ _ _ Hd) as (_ & -> & _).
  unfold count_flag. split.
  - rewrite String.eqb_eq, toLowerCase_true.
    destruct (q !! "count") as [s|].
    + split.
      * intros (c1 & c2 & c3 & c4 & -> & Hc). by exists c1, c2, c3, c4.
      * intros (c1 & c2 & c3 & c4 & [= ->] & Hc). by exists c1, c2, c3, c4.
    + split.
      * intros (c1 & c2 & c3 & c4 & Hs & _). discriminate.
      * intros (c1 & c2 & c3 & c4 & Hs & _). discriminate.
  - by intros ->.
Qed.

End CountFacts.

(** X2, witness: [?count=TrUe]. *)
Lemma X2_count_only_for_true_witness :
  exists d,
    users_list_query (H := Reference.platform) {[ "count" := "TrUe" ]} = Ok d /\
    count d = true.
Proof.
  eexists. split; [reflexivity|].
  eapply (X2_count_only_for_true (H := Reference.platform)
            {[ "count" := "TrUe" ]} None).
  - right. right. right. reflexivity.
  - exists "T"%char, "r"%char, "U"%char, "e"%char. repeat split; auto.
Defined.

Section AliasFacts.
Context `{Platform}.

Lemma rawWhere_with_filter (q : gmap string string) (w f : string) :
  q !! "where" = Some w -> rawWhere (<["filter" := f]> q) = rawWhere q.
Proof.
  intros Hw. unfold rawWhere. rewrite lookup_insert_ne by done. by rewrite Hw.
Qed.

(** X3.  Only one of the two alias keys is read: when [where] is present,
    whatever its value, adding or changing [filter] changes nothing in
    what the two parse functions and the two list routes return.  In
    particular an empty [where] gives the empty filter even when [filter]
    holds a predicate. *)
Theorem X3_filter_ignored_when_where_present (q : gmap string string)
    (w f : string) (dl : option number) :
  q !! "where" = Some w ->
  parseQueryWithFilterAlias (<["filter" := f]> q) dl = parseQueryWithFilterAlias q dl /\
  parseQueryParams (<["filter" := f]> q) dl = parseQueryParams q dl /\
  tasks_list_query (<["filter" := f]> q) = tasks_list_query q /\
  users_list_query (<["filter" := f]> q) = users_list_query q /\
  (w = "" ->
   forall d, parseQueryWithFilterAlias (<["filter" := f]> q) dl = Ok d ->
     where_ d = VJson (JObj ∅)).
Proof.
  intros Hw.
  assert (Hpw : parse_where (<["filter" := f]> q) = parse_where q).
  { unfold parse_where. rewrite (rawWhere_with_filter _ _ _ Hw).
    by rewrite (lookup_insert_ne q "filter" "where"). }
  assert (Hqf : parseQueryWithFilterAlias (<["filter" := f]> q) dl
                = parseQueryWithFilterAlias q dl).
  { unfold parseQueryWithFilterAlias. rewrite Hpw.
    by rewrite !(lookup_insert_ne q "filter") by done. }
  split; [exact Hqf|]. split; [|split; [|split]].
  - unfold parseQueryParams. rewrite (rawWhere_with_filter _ _ _ Hw).
    by rewrite !(lookup_insert_ne q "filter") by done.
  - unfold tasks_list_query. rewrite Hpw.
    by rewrite !(lookup_insert_ne q "filter") by done.
  - unfold users_list_query. rewrite Hpw.
    by rewrite !(lookup_insert_ne q "filter") by done.
  - intros -> d. rewrite Hqf. unfold parseQueryWithFilterAlias.
    assert (parse_where q = Ok (VJson (JObj ∅))) as ->.
    { unfold parse_where, rawWhere. by rewrite Hw. }
    intros Hd. cbn [result_bind] in Hd.
    destruct (parseJSONParam (q !! "sort") "sort"); [|discriminate].
    destruct (parseJSONParam (q !! "select") "select"); [|discriminate].
    cbn [result_bind] in Hd. by simplify_eq.
Qed.

Lemma parseQueryParams_where_parsed (q : gmap string string) (w : value) :
  parse_where q = Ok w ->
  (if raw_truthy (rawWhere q) then JSON_parse_raw (rawWhere q)
   else Ok (VJson (JObj ∅))) = Ok w.
Proof.
  unfold parse_where. destruct (rawWhere q) as [text|]; simpl; [|done].
  destruct (negb (String.eqb text "")); [|done].
  by destruct (JSON_parse text).
Qed.

(** X4.  After a [where] that parses, a malformed [sort] or [select] is
    reported under its own name.  When both are malformed the two parse
    functions name [sort] and the two list routes name [select], each the
    one it parses first. *)
Theorem X4_sort_select_errors (q : gmap string string) (dl : option number)
    (w : value) :
  parse_where q = Ok w ->
  (forall text, q !! "sort" = Some text -> JSON_parse text = None ->
     parseQueryWithFilterAlias q dl = Throw (MalformedQuery "sort") /\
     parseQueryParams q dl = Throw (MalformedQuery "sort") /\
     (forall v, parseJSONParam (q !! "select") "select" = Ok v ->
        tasks_list_query q = Throw (MalformedQuery "sort") /\
        users_list_query q = Throw (MalformedQuery "sort"))) /\
  (forall text, q !! "select" = Some text -> JSON_parse text = None ->
     tasks_list_query q = Throw (MalformedQuery "select") /\
     users_list_query q = Throw (MalformedQuery "select") /\
     (forall v, parseJSONParam (q !! "sort") "sort" = Ok v ->
        parseQueryWithFilterAlias q dl = Throw (MalformedQuery "select") /\
        parseQueryParams q dl = Throw (MalformedQuery "select"))).
Proof.
  intros Hw. pose proof (parseQueryParams_where_parsed _ _ Hw) as Hw'.
  split.
  - intros text Hs Hp.
    assert (parseJSONParam (q !! "sort") "sort" = Throw (MalformedQuery "sort")) as Hsort.
    { rewrite Hs. simpl. by rewrite Hp. }
    unfold parseQueryWithFilterAlias, parseQueryParams, tasks_list_query,
      users_list_query.
    rewrite Hw, Hw', Hsort. split; [done|]. split; [done|].
    intros v ->. done.
  - intros text Hs Hp.
    assert (parseJSONParam (q !! "select") "select"
            = Throw (MalformedQuery "select")) as Hsel.
    { rewrite Hs. simpl. by rewrite Hp. }
    unfold parseQueryWithFilterAlias, parseQueryParams, tasks_list_query,
      users_list_query.
    rewrite Hw, Hw', Hsel. split; [done|]. split; [done|].
    intros v ->. done.
Qed.

Lemma or_undefined_idemp (v : value) : or_undefined (or_undefined v) = or_undefined v.
Proof. unfold or_undefined. destruct (truthy v) eqn:Hv; [by rewrite Hv | done]. Qed.

(** X5.  The two by-id reads.  An id that is not well-formed is answered
    400 before the query is looked at.  With a well-formed id, the whole
    query is parsed although only its [select] is used: a filter that is a
    non-empty text and not JSON makes GET /api/tasks/:id raise
    MalformedQuery naming its key, and makes GET /api/users/:id raise
    the bare SyntaxError of [JSON.parse]; when the query parses, both look
    the id up with the parsed [select] ([undefined] when absent or
    falsy). *)
Theorem X5_by_id_reads (id : string) (q : gmap string string) :
  (ObjectId_isValid (VJson (JStr id)) = false ->
   getTask_query id q = Ok (Answered 400 "Invalid task id") /\
   getUser_query id q = Ok (Answered 400 "Invalid user id")) /\
  (ObjectId_isValid (VJson (JStr id)) = true ->
   (forall text key, JSON_parse text = None -> text <> "" ->
      key = "where" /\ q !! "where" = Some text \/
      key = "filter" /\ q !! "where" = None /\ q !! "filter" = Some text ->
      getTask_query id q = Throw (MalformedQuery key) /\
      getUser_query id q = Throw SyntaxError) /\
   (forall w vs vsel, parse_where q = Ok w ->
      parseJSONParam (q !! "sort") "sort" = Ok vs ->
      parseJSONParam (q !! "select") "select" = Ok vsel ->
      getTask_query id q = Ok (FindById id (or_undefined vsel)) /\
      getUser_query id q = Ok (FindById id (or_undefined vsel)))).
Proof.
  split.
  - intros Hv. unfold getTask_query, getUser_query. by rewrite Hv.
  - intros Hv. unfold getTask_query, getUser_query. rewrite Hv. simpl. split.
    + intros text key Hp Hne Hkey.
      assert (Hraw : rawWhere q = Some text).
      { unfold rawWhere. by destruct Hkey as [[_ ->] | (_ & -> & ->)]. }
      assert (Hpw : parse_where q = Throw (MalformedQuery key)).
      { destruct Hkey as [[-> Hw] | (-> & Hw & Hf)].
        - rewrite (parse_where_by_where _ _ Hw Hne). simpl. by rewrite Hp.
        - rewrite (parse_where_by_filter _ _ Hw Hf Hne). simpl. by rewrite Hp. }
      unfold parseQueryWithFilterAlias, parseQueryParams.
      rewrite Hpw, Hraw, (raw_truthy_text _ Hne). simpl. by rewrite Hp.
    + intros w vs vsel Hw Hs Hsel.
      unfold parseQueryWithFilterAlias, parseQueryParams.
      rewrite (parseQueryParams_where_parsed _ _ Hw), Hw, Hs, Hsel. simpl.
      by rewrite or_undefined_idemp.
Qed.

End AliasFacts.

(** X3, witness: [?where=&filter=[1]]. *)
Lemma X3_filter_ignored_when_where_present_witness :
  exists d,
    parseQueryWithFilterAlias (H := Reference.platform)
      (<["filter" := "[1]"]> {[ "where" := "" ]}) None = Ok d /\
    where_ d = VJson (JObj ∅).
Proof.
  destruct (X3_filter_ignored_when_where_present (H := Reference.platform)
              {[ "where" := "" ]} "" "[1]" None)
    as (Hsame & _ & _ & _ & Hempty); [reflexivity|].
  eexists. split; [reflexivity|]. by apply Hempty.
Defined.

(** X4, witness: [?sort=oops&select=oops]. *)
Lemma X4_sort_select_errors_witness :
  parseQueryWithFilterAlias (H := Reference.platform)
    {[ "sort" := "oops"; "select" := "oops" ]} None
    = Throw (MalformedQuery "sort") /\
  tasks_list_query (H := Reference.platform)
    {[ "sort" := "oops"; "select" := "oops" ]}
    = Throw (MalformedQuery "select").
Proof.
  destruct (X4_sort_select_errors (H := Reference.platform)
              {[ "sort" := "oops"; "select" := "oops" ]} None
              (VJson (JObj ∅))) as [Hsort Hselect]; [reflexivity|].
  split.
  - destruct (Hsort "oops") as [Hs _]; [reflexivity | reflexivity | exact Hs].
  - destruct (Hselect "oops") as [Hs _]; [reflexivity | reflexivity | exact Hs].
Defined.

(** X5, witness: a malformed [where] on the two by-id reads of a
    well-formed id. *)
Lemma X5_by_id_reads_witness :
  getTask_query (H := Reference.platform) Reference.task_id {[ "where" := "{bad" ]}
    = Throw (MalformedQuery "where") /\
  getUser_query (H := Reference.platform) Reference.alice_id {[ "where" := "{bad" ]}
    = Throw SyntaxError.
Proof.
  split.
  - destruct (X5_by_id_reads (H := Reference.platform) Reference.task_id
                {[ "where" := "{bad" ]}) as [_ Hvalid].
    destruct Hvalid as [Hbad _]; [reflexivity|].
    apply (Hbad "{bad" "where"); [reflexivity | discriminate | by left].
  - destruct (X5_by_id_reads (H := Reference.platform) Reference.alice_id
                {[ "where" := "{bad" ]}) as [_ Hvalid].
    destruct Hvalid as [Hbad _]; [reflexivity|].
    apply (Hbad "{bad" "where"); [reflexivity | discriminate | by left].
Defined.

(** X24, witness: [?skip=-3&limit=abc] on the task list. *)
Lemma X24_default_limits_witness :
  exists d,
    tasks_list_query (H := Reference.platform) Reference.odd_page = Ok d /\
    limit d = Finite 100.
Proof.
  eexists. split; [reflexivity|].
  destruct (X24_default_limits (H := Reference.platform) Reference.odd_page
              {| where_ := VJson (JObj ∅); sort := VUndefined; select := VUndefined;
                 skip := Finite 0; limit := Finite 100; count := false |})
    as (Hdefault & _).
  destruct Hdefault as (Htasks & _); [reflexivity|].
  apply Htasks. reflexivity.
Defined.

(* ===================================================================== *)
(** * Further properties of value coercion *)
(* ===================================================================== *)

Section DeadlineFacts.
Context `{Platform}.


Lemma TimeClip_integer (z : Z) :
  Date.TimeClip (Finite (inject_Z z)) =
  if (Z.abs z <=? max_time)%Z then Some z else None.
Proof.
  assert (Hb : Qle_bool (Qabs (inject_Z z)) (inject_Z 8640000000000000)
               = (Z.abs z <=? max_time)%Z).
  { apply eq_true_iff_eq. rewrite Qle_bool_iff, Z.leb_le.
    unfold Qle, max_time. simpl. lia. }
  unfold Date.TimeClip. rewrite Hb.
  destruct (Z.abs z <=? max_time)%Z; [|done]. simpl. by rewrite Z.quot_1_r.
Qed.

Lemma TimeClip_bounded (n : number) (t : Z) :
  Date.TimeClip n = Some t -> (Z.abs t <= max_time)%Z.
Proof.
  unfold Date.TimeClip, max_time. destruct n as [| |q]; try discriminate.
  destruct (Qle_bool _ _) eqn:Hq; [|discriminate]. intros [= <-].
  apply Qle_bool_iff in Hq. unfold Qle in Hq. destruct q as [n d].
  simpl in *. rewrite <- Z.quot_abs by lia.
  change (Z.abs (Z.pos d)) with (Z.pos d).
  apply Z.quot_le_upper_bound; lia.
Qed.

(** X6.  Numbers and booleans as deadlines.  An integer number of
    milliseconds is returned as that instant exactly when its magnitude is
    at most 8 640 000 000 000 000, and fails with InvalidDeadline beyond;
    any numeric result lies within that bound; NaN and the infinities
    fail; and a boolean is not refused: [true] is the instant 1 and
    [false] the epoch. *)
Theorem X6_numeric_deadline :
  (forall z, (Z.abs z <= max_time)%Z ->
     coerceDeadline (VJson (JNum (Finite (inject_Z z)))) = Ok (Some z)) /\
  (forall z, (max_time < Z.abs z)%Z ->
     coerceDeadline (VJson (JNum (Finite (inject_Z z)))) = Throw InvalidDeadline) /\
  (forall v d, is_Date v = false -> isNaN (Number_ v) = false ->
     coerceDeadline v = Ok d ->
     exists t, d = Some t /\ (Z.abs t <= max_time)%Z) /\
  coerceDeadline (VJson (JNum NaN)) = Throw InvalidDeadline /\
  (forall neg, coerceDeadline (VJson (JNum (Infinity neg))) = Throw InvalidDeadline) /\
  coerceDeadline (VJson (JBool true)) = Ok (Some 1%Z) /\
  coerceDeadline (VJson (JBool false)) = Ok (Some 0%Z).
Proof.
  split; [|split; [|split; [|split; [|split; [|split]]]]]; try reflexivity.
  - intros z Hz. unfold coerceDeadline. simpl Number_. simpl isNaN.
    rewrite TimeClip_integer. by rewrite (proj2 (Z.leb_le _ _)).
  - intros z Hz. unfold coerceDeadline. simpl Number_. simpl isNaN.
    rewrite TimeClip_integer. by rewrite (proj2 (Z.leb_gt _ _)).
  - intros v d Hv Hn. rewrite (coerceDeadline_numeric _ Hv Hn).
    destruct (Date.TimeClip (Number_ v)) as [t|] eqn:Ht; [|discriminate].
    intros [= <-]. exists t. split; [done|]. by apply (TimeClip_bounded _ _ Ht).
Qed.

(** X7.  What [coerceDeadline] can return.  For an input that is not a
    Date and whose conversion to a primitive returns (it is no object with
    an own [toString] property and no array that holds one, for which
    [Number(val)] throws a TypeError before anything else is done), it
    either returns a valid Date or fails, and the only failure is
    InvalidDeadline.  A Date is returned as it is even when it is an
    invalid Date. *)
Theorem X7_deadline_valid_or_InvalidDeadline (v : value) :
  (is_Date v = false -> ToPrimitive_throws v = false ->
   (exists t, coerceDeadline v = Ok (Some t)) \/
   coerceDeadline v = Throw InvalidDeadline) /\
  coerceDeadline (VDate None) = Ok None.
Proof.
  split; [|reflexivity]. intros Hv _.
  destruct (isNaN (Number_ v)) eqn:Hn.
  - rewrite (coerceDeadline_text _ Hv Hn). destruct (new_Date v); eauto.
  - rewrite (coerceDeadline_numeric _ Hv Hn).
    destruct (Date.TimeClip (Number_ v)); eauto.
Qed.

End DeadlineFacts.

(** X6, witness: the two ends of the range. *)
Lemma X6_numeric_deadline_witness :
  coerceDeadline (H := Reference.platform)
    (VJson (JNum (Finite (inject_Z (-8640000000000000)))))
    = Ok (Some (-8640000000000000)%Z) /\
  coerceDeadline (H := Reference.platform)
    (VJson (JNum (Finite (inject_Z 8640000000000001))))
    = Throw InvalidDeadline.
Proof.
  destruct (X6_numeric_deadline (H := Reference.platform)) as (Hin & Hout & _).
  split.
  - apply Hin. unfold max_time. simpl. lia.
  - apply Hout. unfold max_time. simpl. lia.
Defined.

(** X7, witness: a text that is no date, on the reference platform. *)
Lemma X7_deadline_valid_or_InvalidDeadline_witness :
  (exists t, coerceDeadline (H := Reference.platform) (VJson (JStr "tomorrow"))
             = Ok (Some t)) \/
  coerceDeadline (H := Reference.platform) (VJson (JStr "tomorrow"))
    = Throw InvalidDeadline.
Proof.
  apply (X7_deadline_valid_or_InvalidDeadline (H := Reference.platform));
    reflexivity.
Defined.

(* ===================================================================== *)
(** * Properties of the other handlers *)
(* ===================================================================== *)

Section DeleteTaskFacts.
Context `{Platform}.

Lemma deleteTask_found (id : string) (s : Session) (tid : ObjectId) (t : Task.doc) :
  ObjectId_isValid (VJson (JStr id)) = true ->
  castObjectId (VJson (JStr id)) = Some tid ->
  s_tasks s !! tid = Some t ->
  deleteTask id s =
  (Respond 204 "No Content" NoData,
   match Task.assignedUser t with
   | Some uid =>
       {| s_users :=
            match s_users s !! uid with
            | Some u => <[uid := pulled tid u]> (s_users s)
            | None => s_users s
            end;
          s_tasks := delete tid (s_tasks s);
          calls := calls s ++ [Call (OpTaskFindById tid); CallTaskDeleteOne tid;
                               Call (OpUserPull uid tid)] |}
   | None =>
       {| s_users := s_users s;
          s_tasks := delete tid (s_tasks s);
          calls := calls s ++ [Call (OpTaskFindById tid); CallTaskDeleteOne tid] |}
   end).
Proof.
  intros Hvalid Hcast Ht. unfold deleteTask, S_handle. rewrite Hvalid. simpl.
  unfold S_bind at 1. unfold issue at 1. unfold Task_findById.
  cbn [users tasks log s_users s_tasks calls]. rewrite Hcast, Ht.
  cbn [fst snd users tasks log logged app map].
  destruct (Task.assignedUser t) as [uid|]; simpl.
  - unfold S_bind, issue, User_pull, pulled. simpl.
    rewrite <- !app_assoc. simpl.
    by destruct (s_users s !! uid).
  - unfold S_bind. simpl. by rewrite <- !app_assoc.
Qed.

(** X8.  Deleting an existing Task answers 204 and removes the Task; the
    other Tasks are as before.  When the Task was assigned, its id is
    pulled from that User's [pendingTasks], after the deletion, and no
    other User is touched; when it was unassigned, the Users are as before
    and no call of the request writes a User. *)
Theorem X8_deleteTask (id : string) (s : Session) (tid : ObjectId) (t : Task.doc) :
  ObjectId_isValid (VJson (JStr id)) = true ->
  castObjectId (VJson (JStr id)) = Some tid ->
  s_tasks s !! tid = Some t ->
  exists s',
    deleteTask id s = (Respond 204 "No Content" NoData, s') /\
    s_tasks s' = delete tid (s_tasks s) /\
    s_tasks s' !! tid = None /\
    (forall uid, Task.assignedUser t = Some uid ->
       (forall u, s_users s !! uid = Some u ->
          exists u', s_users s' !! uid = Some u' /\
            (tid ∉ User.pendingTasks u') /\
            User.pendingTasks u'
              = filter (fun x => x <> tid) (User.pendingTasks u) /\
            User.name u' = User.name u /\ User.email u' = User.email u) /\
       (forall k, k <> uid -> s_users s' !! k = s_users s !! k) /\
       calls s' = calls s ++ [Call (OpTaskFindById tid); CallTaskDeleteOne tid;
                              Call (OpUserPull uid tid)]) /\
    (Task.assignedUser t = None ->
       s_users s' = s_users s /\
       calls s' = calls s ++ [Call (OpTaskFindById tid); CallTaskDeleteOne tid]).
Proof.
  intros Hvalid Hcast Ht. rewrite (deleteTask_found _ _ _ _ Hvalid Hcast Ht).
  eexists. split; [reflexivity|].
  destruct (Task.assignedUser t) as [uid|]; simpl.
  - split; [done|]. split; [apply lookup_delete_eq|]. split; [|done].
    intros uid' [= <-]. split; [|split; [|done]].
    + intros u Hu. rewrite Hu. exists (pulled tid u).
      split; [by rewrite lookup_insert_eq|].
      split; [apply (pulled_not_listed tid u) | done].
    + intros k Hk. destruct (s_users s !! uid); [|done].
      by rewrite lookup_insert_ne.
  - split; [done|]. split; [apply lookup_delete_eq|]. split; [done|]. done.
Qed.

(** X9.  The refusals of DELETE /api/tasks/:id, both before the
    deletion: an id that is not well-formed is answered 400 without any
    call to the store, and a well-formed id of no Task is answered 404
    after the one lookup; the two collections are as they were. *)
Theorem X9_deleteTask_refused (id : string) (s : Session) :
  (ObjectId_isValid (VJson (JStr id)) = false ->
   deleteTask id s = (Respond 400 "Invalid task id" NoData, s)) /\
  (forall tid, ObjectId_isValid (VJson (JStr id)) = true ->
     castObjectId (VJson (JStr id)) = Some tid -> s_tasks s !! tid = None ->
     deleteTask id s =
     (Respond 404 "Task not found" NoData,
      {| s_users := s_users s; s_tasks := s_tasks s;
         calls := calls s ++ [Call (OpTaskFindById tid)] |})).
Proof.
  split.
  - intros Hv. unfold deleteTask, S_handle. by rewrite Hv.
  - intros tid Hv Hcast Ht. unfold deleteTask, S_handle. rewrite Hv. simpl.
    unfold S_bind at 1. unfold issue at 1. unfold Task_findById.
    cbn [users tasks log s_users s_tasks calls]. by rewrite Hcast, Ht.
Qed.

End DeleteTaskFacts.

Section CreateUserFacts.
Context `{Platform}.

Lemma no_user_with_email (e : string) (s : Session) :
  (forall k u, s_users s !! k = Some u -> User.email u <> e) ->
  User_findOne_with_email e s
  = (Ok false,
     {| s_users := s_users s; s_tasks := s_tasks s;
        calls := calls s ++ [CallUserFindOneByEmail e] |}).
Proof.
  intros Hnone. unfold User_findOne_with_email. f_equal. f_equal.
  apply bool_decide_eq_false_2. intros Hne. apply Hne.
  apply map_empty. intros k. apply map_lookup_filter_None. right.
  intros u Hu He. by apply (Hnone k u).
Qed.


(** The run of POST /api/users that reaches the save. *)
Lemma postUser_created (body : UserBody) (new_id : ObjectId) (s : Session)
    (n e : string) (pending : list ObjectId) :
  truthy (b_name body) = true ->
  truthy (b_email body) = true ->
  (forall k u, s_users s !! k = Some u ->
     User.email u <> toLowerCase (String_ (b_email body))) ->
  UserSchema_name (b_name body) = Some n ->
  UserSchema_email (b_email body) = Some e ->
  cast_ids (VJson <$> array_or_empty (b_pendingTasks body)) = Some pending ->
  let user' := {| User.name := n; User.email := e; User.pendingTasks := pending |} in
  exists s' cs,
    postUser body new_id s = (Respond 201 "Created" (UserData new_id user'), s') /\
    s_users s' = <[new_id := user']> (s_users s) /\
    calls s' = calls s ++ cs /\
    (forall k,
       s_tasks s' !! k =
       match s_tasks s !! k with
       | Some t => if decide (k ∈ pending) then Some (assign new_id n t) else Some t
       | None => None
       end).
Proof.
  intros Hname Hemail Hnone Hn He Hpending user'.
  set (st0 := {| users := <[new_id := user']> (s_users s);
                 tasks := s_tasks s; log := [] |}).
  destruct (reconcile_block pending None (assign new_id n) st0)
    as (st1 & ops & Hrun & Hus & Hlog & Hts & _).
  eexists _, _. split; [|split; [|split]].
  - unfold postUser, S_handle. rewrite Hname, Hemail. cbn [negb orb].
    unfold S_bind at 1. rewrite (no_user_with_email _ _ Hnone).
    unfold S_bind at 1. unfold issue at 1. unfold User_save.
    cbn [users tasks log s_users s_tasks calls]. rewrite Hn, He, Hpending.
    cbn [fst snd users tasks log logged with_users].
    fold user'. cbn [User.pendingTasks User.name user'].
    unfold S_bind at 1. unfold issue at 1.
    cbn [users tasks log s_users s_tasks calls]. fold st0.
    rewrite Hrun. cbn [fst snd]. reflexivity.
  - simpl. by rewrite Hus.
  - simpl. rewrite <- !app_assoc. reflexivity.
  - intros k. simpl. rewrite (Hts k). simpl.
    destruct (s_tasks s !! k) as [t|]; [|done].
    destruct (decide (k ∈ pending)) as [Hk|Hk].
    + by rewrite decide_True.
    + rewrite decide_False; [done|]. by intros [? _].
Qed.

(** X10.  Creating a User with an initial [pendingTasks] list (the empty
    list when the field is not an array): the User is stored under its new
    id with the ids that the elements cast to, and the other Users are as
    before; every listed id of an existing Task has that Task's
    [assignedUser] set to the new User and its [assignedUserName] to the
    User's saved name, whatever its assignee was, the other paths of the
    Task being kept; a listed id of no Task is skipped, stays the id of no
    Task and stays in the list; the Tasks that are not listed are as
    before. *)
Theorem X10_postUser_assigns_listed (body : UserBody) (new_id : ObjectId)
    (s : Session) (n e : string) (pending : list ObjectId) :
  truthy (b_name body) = true ->
  truthy (b_email body) = true ->
  (forall k u, s_users s !! k = Some u ->
     User.email u <> toLowerCase (String_ (b_email body))) ->
  UserSchema_name (b_name body) = Some n ->
  UserSchema_email (b_email body) = Some e ->
  cast_ids (VJson <$> array_or_empty (b_pendingTasks body)) = Some pending ->
  exists s' user',
    postUser body new_id s = (Respond 201 "Created" (UserData new_id user'), s') /\
    s_users s' !! new_id = Some user' /\
    User.name user' = n /\ User.email user' = e /\
    User.pendingTasks user' = pending /\
    (forall k, k <> new_id -> s_users s' !! k = s_users s !! k) /\
    (forall tid t, tid ∈ pending -> s_tasks s !! tid = Some t ->
       exists t', s_tasks s' !! tid = Some t' /\
         Task.assignedUser t' = Some new_id /\
         Task.assignedUserName t' = n /\
         same_apart_from_assignee t t') /\
    (forall tid, tid ∉ pending -> s_tasks s' !! tid = s_tasks s !! tid) /\
    (forall tid, s_tasks s !! tid = None -> s_tasks s' !! tid = None).
Proof.
  intros Hname Hemail Hnone Hn He Hpending.
  destruct (postUser_created body new_id s n e pending Hname Hemail Hnone Hn He
              Hpending)
    as (s' & cs & Hrun & Hus & _ & Hts).
  exists s', {| User.name := n; User.email := e; User.pendingTasks := pending |}.
  split; [exact Hrun|]. rewrite Hus.
  split; [apply lookup_insert_eq|].
  split; [done|]. split; [done|]. split; [done|]. split; [|split; [|split]].
  - intros k Hk. by rewrite lookup_insert_ne.
  - intros tid t Hin Ht. exists (assign new_id n t).
    split; [|by repeat split]. rewrite Hts, Ht. by rewrite decide_True.
  - intros tid Hin. rewrite Hts. destruct (s_tasks s !! tid); [|done].
    by rewrite decide_False.
  - intros tid Ht. by rewrite Hts, Ht.
Qed.


End CreateUserFacts.

Section TaskCreateUpdateFacts.
Context `{Platform}.




End TaskCreateUpdateFacts.

(* ===================================================================== *)
(** * The two sides of the assignment stay in agreement *)
(* ===================================================================== *)

Section ConsistencyFacts.
Context `{Platform}.


Lemma elem_of_pulled (x tid : ObjectId) (u : User.doc) :
  x ∈ User.pendingTasks (pulled tid u) <-> x ∈ User.pendingTasks u /\ x <> tid.
Proof. unfold pulled. simpl. rewrite list_elem_of_filter. tauto. Qed.







Lemma deleteUser_found (id : string) (st : Store) (uid : ObjectId) (u : User.doc) :
  ObjectId_isValid (VJson (JStr id)) = true ->
  castObjectId (VJson (JStr id)) = Some uid ->
  users st !! uid = Some u ->
  deleteUser id st =
  (Respond 204 "No Content" NoData,
   {| users := delete uid (users st);
      tasks := (fun t => if bool_decide (Task.assignedUser t = Some uid)
                         then unassign t else t) <$> tasks st;
      log := log st ++ [OpUserFindById uid; OpTaskUpdateMany uid;
                        OpUserDeleteOne uid] |}).
Proof.
  intros Hvalid Hcast Hu. unfold deleteUser, handle. rewrite Hvalid. simpl.
  unfold bind, User_findById. rewrite Hcast, Hu. simpl.
  unfold logged, with_tasks, with_users. simpl.
  by rewrite <- ?app_assoc.
Qed.

(** X17.  Deleting a User keeps the two sides in agreement: when they
    agree before the deletion of an existing User, they agree after it. *)
Theorem X17_deleteUser_keeps_consistent (id : string) (st : Store)
    (uid : ObjectId) (u : User.doc) :
  ObjectId_isValid (VJson (JStr id)) = true ->
  castObjectId (VJson (JStr id)) = Some uid ->
  users st !! uid = Some u ->
  consistent (users st) (tasks st) ->
  exists st',
    deleteUser id st = (Respond 204 "No Content" NoData, st') /\
    consistent (users st') (tasks st').
Proof.
  intros Hvalid Hcast Hu [Hfwd Hbwd].
  rewrite (deleteUser_found _ _ _ _ Hvalid Hcast Hu).
  eexists. split; [reflexivity|]. simpl. split.
  - intros k u' x t' Hk Hx. rewrite lookup_fmap.
    destruct (tasks st !! x) as [t|] eqn:Ht; [|done]. simpl. intros [= <-].
    assert (k <> uid) by (intros ->; by rewrite lookup_delete_eq in Hk).
    rewrite lookup_delete_ne in Hk by done.
    pose proof (Hfwd k u' x t Hk Hx Ht) as Hassigned.
    rewrite bool_decide_eq_false_2 by congruence. done.
  - intros x t' k u'. rewrite lookup_fmap.
    destruct (tasks st !! x) as [t|] eqn:Ht; [|done]. simpl. intros [= <-].
    case_bool_decide as Hmine; [done|]. intros Hassigned Hk.
    assert (k <> uid) by (intros ->; by rewrite lookup_delete_eq in Hk).
    rewrite lookup_delete_ne in Hk by done.
    by apply (Hbwd x t k u').
Qed.

(** X18.  Deleting a Task keeps the two sides in agreement: when they
    agree before the deletion of an existing Task, they agree after it. *)
Theorem X18_deleteTask_keeps_consistent (id : string) (s : Session)
    (tid : ObjectId) (t : Task.doc) :
  ObjectId_isValid (VJson (JStr id)) = true ->
  castObjectId (VJson (JStr id)) = Some tid ->
  s_tasks s !! tid = Some t ->
  consistent (s_users s) (s_tasks s) ->
  exists s',
    deleteTask id s = (Respond 204 "No Content" NoData, s') /\
    consistent (s_users s') (s_tasks s').
Proof.
  intros Hvalid Hcast Ht [Hfwd Hbwd].
  rewrite (deleteTask_found _ _ _ _ Hvalid Hcast Ht).
  eexists. split; [reflexivity|].
  assert (Husers : forall k u',
    s_users (match Task.assignedUser t with
             | Some uid =>
                 {| s_users :=
                      match s_users s !! uid with
                      | Some u => <[uid := pulled tid u]> (s_users s)
                      | None => s_users s
                      end;
                    s_tasks := delete tid (s_tasks s);
                    calls := calls s ++ [Call (OpTaskFindById tid);
                                         CallTaskDeleteOne tid;
                                         Call (OpUserPull uid tid)] |}
             | None =>
                 {| s_users := s_users s;
                    s_tasks := delete tid (s_tasks s);
                    calls := calls s ++ [Call (OpTaskFindById tid);
                                         CallTaskDeleteOne tid] |}
             end) !! k = Some u' ->
    exists u, s_users s !! k = Some u /\
      (forall x, x <> tid -> x ∈ User.pendingTasks u' <-> x ∈ User.pendingTasks u)).
  { intros k u'. destruct (Task.assignedUser t) as [uid|]; simpl; [|by eauto].
    destruct (s_users s !! uid) as [u|] eqn:Hu; [|by eauto].
    destruct (decide (k = uid)) as [-> | Hk].
    - rewrite lookup_insert_eq. intros [= <-]. exists u. split; [done|].
      intros x Hx. rewrite elem_of_pulled. tauto.
    - rewrite lookup_insert_ne by done. eauto. }
  assert (Htasks :
    s_tasks (match Task.assignedUser t with
             | Some uid =>
                 {| s_users :=
                      match s_users s !! uid with
                      | Some u => <[uid := pulled tid u]> (s_users s)
                      | None => s_users s
                      end;
                    s_tasks := delete tid (s_tasks s);
                    calls := calls s ++ [Call (OpTaskFindById tid);
                                         CallTaskDeleteOne tid;
                                         Call (OpUserPull uid tid)] |}
             | None =>
                 {| s_users := s_users s;
                    s_tasks := delete tid (s_tasks s);
                    calls := calls s ++ [Call (OpTaskFindById tid);
                                         CallTaskDeleteOne tid] |}
             end) = delete tid (s_tasks s))
    by by destruct (Task.assignedUser t).
  rewrite Htasks. split.
  - intros k u' x t' Hk Hx Hx'.
    assert (x <> tid) by (intros ->; by rewrite lookup_delete_eq in Hx').
    rewrite lookup_delete_ne in Hx' by done.
    destruct (Husers k u' Hk) as (u & Hu & Hsame).
    apply (Hfwd k u x t'); [done | by apply Hsame | done].
  - intros x t' k u' Hx' Hassigned Hk.
    assert (x <> tid) by (intros ->; by rewrite lookup_delete_eq in Hx').
    rewrite lookup_delete_ne in Hx' by done.
    destruct (Husers k u' Hk) as (u & Hu & Hsame).
    apply Hsame; [done|]. by apply (Hbwd x t' k u).
Qed.

End ConsistencyFacts.

(* ===================================================================== *)
(** * The User side of the assignment *)
(* ===================================================================== *)

Section UserSideFacts.
Context `{Platform}.

(** The ids that a list of texts casts to, element by element. *)
Lemma cast_elements (texts : list string) (new : list ObjectId) :
  Forall2 (fun s x => castObjectId (VJson (JStr s)) = Some x) texts new ->
  (forall x, x ∈ new -> exists s, s ∈ texts /\ castObjectId (VJson (JStr s)) = Some x) /\
  (forall s, s ∈ texts -> exists x, x ∈ new /\ castObjectId (VJson (JStr s)) = Some x).
Proof.
  induction 1 as [|s x texts new Hs _ [IH1 IH2]].
  - split; intros ? ?%elem_of_nil; done.
  - split.
    + intros x' [-> | Hx']%elem_of_cons.
      * exists s. by rewrite elem_of_cons; auto.
      * destruct (IH1 x' Hx') as (s' & ? & ?). exists s'. rewrite elem_of_cons. auto.
    + intros s' [-> | Hs']%elem_of_cons.
      * exists x. by rewrite elem_of_cons; auto.
      * destruct (IH2 s' Hs') as (x' & ? & ?). exists x'. rewrite elem_of_cons. auto.
Qed.

(** X19.  Updating a User keeps the two sides in agreement provided no
    added Task belongs to someone else: when they agree before an update
    that reaches the save, with the new list given as an array of id
    texts in any spelling, and every existing Task whose id is in the new
    list and not in the old one is unassigned or already assigned to this
    User, they agree after it. *)
Theorem X19_putUser_keeps_consistent (id : string) (body : UserBody)
    (st : Store) (uid : ObjectId) (user : User.doc) (n e : string)
    (texts : list string) (new : list ObjectId) :
  ObjectId_isValid (VJson (JStr id)) = true ->
  castObjectId (VJson (JStr id)) = Some uid ->
  truthy (b_name body) = true ->
  truthy (b_email body) = true ->
  users st !! uid = Some user ->
  (forall k u, users st !! k = Some u -> k <> uid ->
     User.email u <> toLowerCase (String_ (b_email body))) ->
  UserSchema_name (b_name body) = Some n ->
  UserSchema_email (b_email body) = Some e ->
  array_or_empty (b_pendingTasks body) = JStr <$> texts ->
  Forall2 (fun s x => castObjectId (VJson (JStr s)) = Some x) texts new ->
  (forall y, y ∈ User.pendingTasks user ->
     castObjectId (VJson (JStr (ObjectId_toString y))) = Some y) ->
  (forall tid t, tid ∈ new -> tid ∉ User.pendingTasks user ->
     tasks st !! tid = Some t ->
     Task.assignedUser t = None \/ Task.assignedUser t = Some uid) ->
  consistent (users st) (tasks st) ->
  exists st' user',
    putUser id body st = (Respond 200 "OK" (UserData uid user'), st') /\
    consistent (users st') (tasks st').
Proof.
  intros Hvalid Hcast Hname Hemail Huser Hnodup Hn He Harr Hnew Hback Hfree
    [Hfwd Hbwd].
  destruct (putUser_saved id body st uid user n e texts new Hvalid Hcast Hname
              Hemail Huser Hnodup Hn He Harr Hnew Hback)
    as (st' & ops & R & A & Hrun & Hus & _ & HR & HA & Hts & _).
  destruct (cast_elements texts new Hnew) as [Hnew1 Hnew2].
  assert (HAnew : forall k, k ∈ A -> k ∈ new).
  { intros k (s & Hs & _ & Hc)%HA. destruct (Hnew2 s Hs) as (x & Hx & Hc').
    congruence. }
  assert (Hkept : forall k, k ∈ new -> k ∉ A ->
            k ∈ User.pendingTasks user /\ ObjectId_toString k ∈ texts).
  { intros k Hk HkA. destruct (Hnew1 k Hk) as (s & Hs & Hc).
    destruct (decide (s ∈ ObjectId_toString <$> User.pendingTasks user))
      as [Hold | Hold].
    - apply list_elem_of_fmap in Hold as (y & -> & Hy).
      rewrite (Hback y Hy) in Hc. injection Hc as <-. done.
    - exfalso. apply HkA, HA. by exists s. }
  exists st', {| User.name := n; User.email := e; User.pendingTasks := new |}.
  split; [exact Hrun|]. rewrite Hus. split.
  - intros k u' x t' Hk Hx. rewrite Hts.
    destruct (tasks st !! x) as [t|] eqn:Ht; [|done].
    destruct (decide (k = uid)) as [-> | Hku].
    + rewrite lookup_insert_eq in Hk. injection Hk as <-. simpl in Hx.
      destruct (decide (x ∈ A)) as [HxA | HxA]; [by intros [= <-]|].
      destruct (Hkept x Hx HxA) as [Hp Htext].
      rewrite decide_False by (rewrite HR; tauto). intros [= <-].
      by apply (Hfwd uid user x t).
    + rewrite lookup_insert_ne in Hk by done.
      pose proof (Hfwd k u' x t Hk Hx Ht) as Hassigned.
      destruct (decide (x ∈ A)) as [HxA | HxA].
      * exfalso. apply HAnew in HxA.
        destruct (decide (x ∈ User.pendingTasks user)) as [Hp | Hp].
        -- pose proof (Hfwd uid user x t Huser Hp Ht). congruence.
        -- destruct (Hfree x t HxA Hp Ht); congruence.
      * rewrite decide_False; [by intros [= <-]|].
        intros [_ Hmine]. congruence.
  - intros x t' k u'. rewrite Hts.
    destruct (tasks st !! x) as [t|] eqn:Ht; [|done].
    destruct (decide (x ∈ A)) as [HxA | HxA].
    + intros [= <-]. simpl. intros [= <-].
      rewrite lookup_insert_eq. intros [= <-]. simpl. by apply HAnew.
    + destruct (decide (x ∈ R /\ Task.assignedUser t = Some uid)) as [Hrem | Hrem];
        [by intros [= <-]|].
      intros [= <-] Hassigned.
      destruct (decide (k = uid)) as [-> | Hku].
      * rewrite lookup_insert_eq. intros [= <-]. simpl.
        pose proof (Hbwd x t uid user Ht Hassigned Huser) as Hp.
        assert (Htext : ObjectId_toString x ∈ texts).
        { destruct (decide (ObjectId_toString x ∈ texts)); [done|].
          exfalso. apply Hrem. split; [by apply HR | done]. }
        destruct (Hnew2 _ Htext) as (x' & Hx' & Hc).
        rewrite (Hback x Hp) in Hc. by injection Hc as <-.
      * rewrite lookup_insert_ne by done. intros Hk.
        by apply (Hbwd x t k u').
Qed.

(** X20.  PUT /api/users/:id writes no other User: when the new list adds
    a Task that is assigned to another User who lists it, the Task goes to
    this User and the other User's [pendingTasks] still lists it, so the
    two sides no longer agree. *)
Theorem X20_putUser_leaves_former_assignee_stale (id : string) (body : UserBody)
    (st : Store) (uid : ObjectId) (user : User.doc) (n e : string)
    (texts : list string) (new : list ObjectId)
    (tid : ObjectId) (t : Task.doc) (v : ObjectId) (uv : User.doc) :
  ObjectId_isValid (VJson (JStr id)) = true ->
  castObjectId (VJson (JStr id)) = Some uid ->
  truthy (b_name body) = true ->
  truthy (b_email body) = true ->
  users st !! uid = Some user ->
  (forall k u, users st !! k = Some u -> k <> uid ->
     User.email u <> toLowerCase (String_ (b_email body))) ->
  UserSchema_name (b_name body) = Some n ->
  UserSchema_email (b_email body) = Some e ->
  array_or_empty (b_pendingTasks body) = JStr <$> texts ->
  Forall2 (fun s x => castObjectId (VJson (JStr s)) = Some x) texts new ->
  (forall y, y ∈ User.pendingTasks user ->
     castObjectId (VJson (JStr (ObjectId_toString y))) = Some y) ->
  tid ∈ new ->
  tid ∉ User.pendingTasks user ->
  tasks st !! tid = Some t ->
  Task.assignedUser t = Some v -> v <> uid ->
  users st !! v = Some uv -> tid ∈ User.pendingTasks uv ->
  exists st',
    (putUser id body st).2 = st' /\
    (forall k, k <> uid -> users st' !! k = users st !! k) /\
    users st' !! v = Some uv /\
    tasks st' !! tid = Some (assign uid n t) /\
    Task.assignedUser (assign uid n t) = Some uid /\
    ~ consistent (users st') (tasks st').
Proof.
  intros Hvalid Hcast Hname Hemail Huser Hnodup Hn He Harr Hnew Hback
    Hin Hprev Ht Hv Hvu Huv Hlisted.
  destruct (putUser_saved id body st uid user n e texts new Hvalid Hcast Hname
              Hemail Huser Hnodup Hn He Harr Hnew Hback)
    as (st' & ops & R & A & Hrun & Hus & _ & HR & HA & Hts & _).
  destruct (cast_elements texts new Hnew) as [Hnew1 _].
  assert (HtA : tid ∈ A).
  { destruct (Hnew1 tid Hin) as (s & Hs & Hc). apply HA. exists s.
    split; [done|]. split; [|done].
    intros (y & -> & Hy)%list_elem_of_fmap.
    rewrite (Hback y Hy) in Hc. congruence. }
  exists st'. split; [by rewrite Hrun|].
  assert (Hv' : users st' !! v = Some uv) by (by rewrite Hus, lookup_insert_ne).
  assert (Ht' : tasks st' !! tid = Some (assign uid n t)).
  { rewrite Hts, Ht. by rewrite decide_True. }
  split; [|split; [done|split; [done|split; [done|]]]].
  - intros k Hk. by rewrite Hus, lookup_insert_ne.
  - intros [Hfwd _]. specialize (Hfwd v uv tid _ Hv' Hlisted Ht').
    simpl in Hfwd. congruence.
Qed.



(** X21.  Creating a User keeps the two sides in agreement provided the
    listed Tasks are free: when they agree before a create that reaches
    the save, the generated id is new (the id of no User, the assignee of
    no Task) and every listed id of an existing Task is the id of an
    unassigned Task, they agree after it. *)
Theorem X21_postUser_keeps_consistent (body : UserBody) (new_id : ObjectId)
    (s : Session) (n e : string) (pending : list ObjectId) :
  truthy (b_name body) = true ->
  truthy (b_email body) = true ->
  (forall k u, s_users s !! k = Some u ->
     User.email u <> toLowerCase (String_ (b_email body))) ->
  UserSchema_name (b_name body) = Some n ->
  UserSchema_email (b_email body) = Some e ->
  cast_ids (VJson <$> array_or_empty (b_pendingTasks body)) = Some pending ->
  s_users s !! new_id = None ->
  (forall tid t, s_tasks s !! tid = Some t -> Task.assignedUser t <> Some new_id) ->
  (forall tid t, tid ∈ pending -> s_tasks s !! tid = Some t ->
     Task.assignedUser t = None) ->
  consistent (s_users s) (s_tasks s) ->
  exists s' user',
    postUser body new_id s = (Respond 201 "Created" (UserData new_id user'), s') /\
    consistent (s_users s') (s_tasks s').
Proof.
  intros Hname Hemail Hnone Hn He Hpending Hfresh Hnobody Hfree [Hfwd Hbwd].
  destruct (postUser_created body new_id s n e pending Hname Hemail Hnone Hn He
              Hpending)
    as (s' & cs & Hrun & Hus & _ & Hts).
  exists s', {| User.name := n; User.email := e; User.pendingTasks := pending |}.
  split; [exact Hrun|]. rewrite Hus. split.
  - intros k u' x t' Hk Hx. rewrite Hts.
    destruct (s_tasks s !! x) as [t|] eqn:Ht; [|done].
    destruct (decide (k = new_id)) as [-> | Hk'].
    + rewrite lookup_insert_eq in Hk. injection Hk as <-. simpl in Hx.
      rewrite decide_True by done. by intros [= <-].
    + rewrite lookup_insert_ne in Hk by done.
      pose proof (Hfwd k u' x t Hk Hx Ht) as Hassigned.
      destruct (decide (x ∈ pending)) as [Hin | Hin]; [|by intros [= <-]].
      rewrite (Hfree x t Hin Ht) in Hassigned. discriminate.
  - intros x t' k u'. rewrite Hts.
    destruct (s_tasks s !! x) as [t|] eqn:Ht; [|done].
    destruct (decide (x ∈ pending)) as [Hin | Hin].
    + intros [= <-]. simpl. intros [= <-].
      rewrite lookup_insert_eq. by intros [= <-].
    + intros [= <-] Hassigned.
      destruct (decide (k = new_id)) as [-> | Hk'].
      * exfalso. by apply (Hnobody x t).
      * rewrite lookup_insert_ne by done. intros Hk.
        by apply (Hbwd x t k u').
Qed.

(** X23.  POST /api/users writes no other User: when the initial list
    names a Task that is assigned to a User who lists it, the Task goes to
    the new User and the other User's [pendingTasks] still lists it, so
    the two sides no longer agree. *)
Theorem X23_postUser_leaves_former_assignee_stale (body : UserBody)
    (new_id : ObjectId) (s : Session) (n e : string) (pending : list ObjectId)
    (tid : ObjectId) (t : Task.doc) (v : ObjectId) (uv : User.doc) :
  truthy (b_name body) = true ->
  truthy (b_email body) = true ->
  (forall k u, s_users s !! k = Some u ->
     User.email u <> toLowerCase (String_ (b_email body))) ->
  UserSchema_name (b_name body) = Some n ->
  UserSchema_email (b_email body) = Some e ->
  cast_ids (VJson <$> array_or_empty (b_pendingTasks body)) = Some pending ->
  s_users s !! new_id = None ->
  tid ∈ pending ->
  s_tasks s !! tid = Some t ->
  Task.assignedUser t = Some v ->
  s_users s !! v = Some uv -> tid ∈ User.pendingTasks uv ->
  exists s',
    (postUser body new_id s).2 = s' /\
    s_users s' !! v = Some uv /\
    s_tasks s' !! tid = Some (assign new_id n t) /\
    ~ consistent (s_users s') (s_tasks s').
Proof.
  intros Hname Hemail Hnone Hn He Hpending Hfresh Hin Ht Hv Huv Hlisted.
  destruct (postUser_created body new_id s n e pending Hname Hemail Hnone Hn He
              Hpending)
    as (s' & cs & Hrun & Hus & _ & Hts).
  exists s'. split; [by rewrite Hrun|].
  assert (Hne : v <> new_id) by (intros ->; congruence).
  assert (Hv' : s_users s' !! v = Some uv) by (by rewrite Hus, lookup_insert_ne).
  assert (Ht' : s_tasks s' !! tid = Some (assign new_id n t)).
  { rewrite Hts, Ht. by rewrite decide_True. }
  split; [done|]. split; [done|].
  intros [Hfwd _]. specialize (Hfwd v uv tid _ Hv' Hlisted Ht').
  simpl in Hfwd. congruence.
Qed.

End UserSideFacts.

Section DeleteUserRefusedFacts.
Context `{Platform}.

(** X25.  The refusals of DELETE /api/users/:id, both before any
    write: an id that is not well-formed is answered 400 with no operation
    at all, and a well-formed id of no User is answered 404 after the one
    lookup, before any Task is touched; the two collections are as they
    were. *)
Theorem X25_deleteUser_refused (id : string) (st : Store) :
  (ObjectId_isValid (VJson (JStr id)) = false ->
   deleteUser id st = (Respond 400 "Invalid user id" NoData, st)) /\
  (forall uid, ObjectId_isValid (VJson (JStr id)) = true ->
     castObjectId (VJson (JStr id)) = Some uid -> users st !! uid = None ->
     deleteUser id st =
     (Respond 404 "User not found" NoData, logged (OpUserFindById uid) st) /\
     users (logged (OpUserFindById uid) st) = users st /\
     tasks (logged (OpUserFindById uid) st) = tasks st).
Proof.
  split.
  - intros Hv. unfold deleteUser, handle. by rewrite Hv.
  - intros uid Hv Hcast Hu. split; [|done].
    unfold deleteUser, handle. rewrite Hv. simpl.
    unfold bind, User_findById. by rewrite Hcast, Hu.
Qed.

End DeleteUserRefusedFacts.

(** X25, witness: a delete of a User with a well-formed id of no User. *)
Lemma X25_deleteUser_refused_witness :
  deleteUser (H := Reference.platform) "000000000000000000000009" Reference.store0
  = (Respond 404 "User not found" NoData,
     logged (OpUserFindById 9%N) Reference.store0).
Proof.
  destruct (X25_deleteUser_refused (H := Reference.platform)
              "000000000000000000000009" Reference.store0) as (_ & Hunknown).
  by destruct (Hunknown 9%N eq_refl eq_refl eq_refl) as [Hrun _].
Defined.

(* ===================================================================== *)
(** * The handlers on the sample stores *)
(* ===================================================================== *)

(** The two sides agree in the sample stores. *)
Lemma store0_consistent :
  consistent (users Reference.store0) (tasks Reference.store0).
Proof.
  split.
  - intros uid u tid t Hu Hin Ht. simpl in Hu, Ht.
    apply lookup_singleton_Some in Ht as [<- <-].
    apply lookup_insert_Some in Hu as [[<- <-] | [_ Hu]]; [done|].
    apply lookup_singleton_Some in Hu as [<- <-]. by apply elem_of_nil in Hin.
  - intros tid t uid u Ht Ha Hu. simpl in Hu, Ht.
    apply lookup_singleton_Some in Ht as [<- <-].
    injection Ha as <-. injection Hu as <-. by apply list_elem_of_singleton.
Qed.

Lemma store1_consistent :
  consistent (users Reference.store1) (tasks Reference.store1).
Proof.
  split.
  - intros uid u tid t Hu Hin Ht. simpl in Hu, Ht.
    apply lookup_insert_Some in Hu as [[<- <-] | [_ Hu]].
    + apply list_elem_of_singleton in Hin as ->. by injection Ht as <-.
    + apply lookup_singleton_Some in Hu as [<- <-]. by apply elem_of_nil in Hin.
  - intros tid t uid u Ht Ha Hu. simpl in Hu, Ht.
    apply lookup_insert_Some in Ht as [[<- <-] | [_ Ht]].
    + injection Ha as <-. injection Hu as <-. by apply list_elem_of_singleton.
    + apply lookup_singleton_Some in Ht as [<- <-]. discriminate.
Qed.

(** No User of the sample stores has Carol's email. *)
Lemma no_carol (k : ObjectId) (u : User.doc) :
  users Reference.store0 !! k = Some u -> User.email u <> "carol@x.com".
Proof.
  intros Hu. simpl in Hu.
  apply lookup_insert_Some in Hu as [[<- <-] | [_ Hu]]; [done|].
  by apply lookup_singleton_Some in Hu as [<- <-].
Qed.

(** Bob is the only User of the sample stores with Bob's email. *)
Lemma only_bob (k : ObjectId) (u : User.doc) :
  users Reference.store0 !! k = Some u -> k <> 2%N -> User.email u <> "bob@x.com".
Proof.
  intros Hu Hk. simpl in Hu.
  apply lookup_insert_Some in Hu as [[<- <-] | [_ Hu]]; [done|].
  by apply lookup_singleton_Some in Hu as [<- <-].
Qed.

(** X8, witness: deleting Alice's Task [report] from the sample store. *)
Lemma X8_deleteTask_witness :
  exists s' alice',
    deleteTask (H := Reference.platform) Reference.task_id
      (session_of Reference.store0) = (Respond 204 "No Content" NoData, s') /\
    s_tasks s' !! 161%N = None /\
    s_users s' !! 1%N = Some alice' /\ User.pendingTasks alice' = [].
Proof.
  destruct (X8_deleteTask (H := Reference.platform) Reference.task_id
              (session_of Reference.store0) 161%N Reference.report
              eq_refl eq_refl eq_refl)
    as (s' & Hrun & _ & Hgone & Hassigned & _).
  destruct (Hassigned 1%N eq_refl) as (Hpull & _).
  destruct (Hpull Reference.alice eq_refl) as (alice' & Hu & _ & Hlist & _).
  exists s', alice'. split; [exact Hrun|]. split; [exact Hgone|].
  split; [exact Hu | exact Hlist].
Defined.

(** X9, witness: a delete with an id that is not well-formed. *)
Lemma X9_deleteTask_refused_witness :
  deleteTask (H := Reference.platform) "xyz" (session_of Reference.store0)
  = (Respond 400 "Invalid task id" NoData, session_of Reference.store0).
Proof.
  destruct (X9_deleteTask_refused (H := Reference.platform) "xyz"
              (session_of Reference.store0)) as [Hbad _].
  apply Hbad. reflexivity.
Defined.

(** X10, witness: Carol is created with Alice's Task [report] in her
    list. *)
Lemma X10_postUser_assigns_listed_witness :
  exists s' t',
    (postUser (H := Reference.platform) Reference.carol_takes_report 3%N
       (session_of Reference.store0)).2 = s' /\
    s_tasks s' !! 161%N = Some t' /\
    Task.assignedUser t' = Some 3%N /\ Task.assignedUserName t' = "Carol".
Proof.
  edestruct (X10_postUser_assigns_listed (H := Reference.platform)
               Reference.carol_takes_report 3%N (session_of Reference.store0)
               "Carol" "carol@x.com" [161%N])
    as (s' & user' & Hrun & _ & _ & _ & _ & _ & Hlisted & _).
  - reflexivity.
  - reflexivity.
  - intros k u Hu. vm_compute toLowerCase. by apply (no_carol k u).
  - vm_compute. reflexivity.
  - vm_compute. reflexivity.
  - reflexivity.
  - destruct (Hlisted 161%N Reference.report) as (t' & Ht' & Hto & Hname & _);
      [by apply list_elem_of_singleton | reflexivity |].
    exists s', t'. split; [by rewrite Hrun|]. split; [exact Ht'|].
    split; [exact Hto | exact Hname].
Defined.







(** X17, witness: deleting Alice from the sample store. *)
Lemma X17_deleteUser_keeps_consistent_witness :
  exists st',
    deleteUser (H := Reference.platform) Reference.alice_id Reference.store0
      = (Respond 204 "No Content" NoData, st') /\
    consistent (users st') (tasks st').
Proof.
  apply (X17_deleteUser_keeps_consistent (H := Reference.platform)
           Reference.alice_id Reference.store0 1%N Reference.alice
           eq_refl eq_refl eq_refl store0_consistent).
Defined.

(** X18, witness: deleting Alice's Task from the sample store. *)
Lemma X18_deleteTask_keeps_consistent_witness :
  exists s',
    deleteTask (H := Reference.platform) Reference.task_id
      (session_of Reference.store0) = (Respond 204 "No Content" NoData, s') /\
    consistent (s_users s') (s_tasks s').
Proof.
  apply (X18_deleteTask_keeps_consistent (H := Reference.platform)
           Reference.task_id (session_of Reference.store0) 161%N Reference.report
           eq_refl eq_refl eq_refl store0_consistent).
Defined.

(** X19, witness: Bob's list is replaced by a list with the unassigned
    Task [draft]. *)
Lemma X19_putUser_keeps_consistent_witness :
  exists st',
    (putUser (H := Reference.platform) Reference.bob_id
       Reference.bob_takes_draft Reference.store1).2 = st' /\
    consistent (users st') (tasks st').
Proof.
  edestruct (X19_putUser_keeps_consistent (H := Reference.platform)
               Reference.bob_id Reference.bob_takes_draft Reference.store1
               2%N Reference.bob "Bob" "bob@x.com"
               [Reference.draft_id] [162%N])
    as (st' & user' & Hrun & Hagree).
  - reflexivity.
  - reflexivity.
  - reflexivity.
  - reflexivity.
  - reflexivity.
  - intros k u Hu Hk. vm_compute toLowerCase. by apply (only_bob k u).
  - vm_compute. reflexivity.
  - vm_compute. reflexivity.
  - reflexivity.
  - by repeat constructor.
  - intros y Hy. by apply elem_of_nil in Hy.
  - intros tid t Hin _ Ht. apply list_elem_of_singleton in Hin as ->.
    injection Ht as <-. by left.
  - exact store1_consistent.
  - exists st'. split; [by rewrite Hrun | exact Hagree].
Defined.

(** X20, witness: Bob's list is replaced by a list with Alice's Task
    [report]. *)
Lemma X20_putUser_leaves_former_assignee_stale_witness :
  exists st' t',
    (putUser (H := Reference.platform) Reference.bob_id
       Reference.bob_takes_report Reference.store0).2 = st' /\
    users st' !! 1%N = Some Reference.alice /\
    tasks st' !! 161%N = Some t' /\ Task.assignedUser t' = Some 2%N /\
    ~ consistent (users st') (tasks st').
Proof.
  edestruct (X20_putUser_leaves_former_assignee_stale (H := Reference.platform)
               Reference.bob_id Reference.bob_takes_report Reference.store0
               2%N Reference.bob "Bob" "bob@x.com"
               [Reference.task_id] [161%N] 161%N Reference.report
               1%N Reference.alice)
    as (st' & Hrun & _ & Halice & Htask & Hto & Hstale).
  - reflexivity.
  - reflexivity.
  - reflexivity.
  - reflexivity.
  - reflexivity.
  - intros k u Hu Hk. vm_compute toLowerCase. by apply (only_bob k u).
  - vm_compute. reflexivity.
  - vm_compute. reflexivity.
  - reflexivity.
  - by repeat constructor.
  - intros y Hy. by apply elem_of_nil in Hy.
  - by apply list_elem_of_singleton.
  - intros Hin. by apply elem_of_nil in Hin.
  - reflexivity.
  - reflexivity.
  - discriminate.
  - reflexivity.
  - by apply list_elem_of_singleton.
  - exists st', (assign 2%N "Bob" Reference.report).
    split; [exact Hrun|]. split; [exact Halice|].
    split; [exact Htask|]. split; [exact Hto | exact Hstale].
Defined.

(** X21, witness: Carol is created with the unassigned Task [draft] in
    her list. *)
Lemma X21_postUser_keeps_consistent_witness :
  exists s',
    (postUser (H := Reference.platform) Reference.carol_takes_draft 3%N
       (session_of Reference.store1)).2 = s' /\
    consistent (s_users s') (s_tasks s').
Proof.
  edestruct (X21_postUser_keeps_consistent (H := Reference.platform)
               Reference.carol_takes_draft 3%N (session_of Reference.store1)
               "Carol" "carol@x.com" [162%N])
    as (s' & user' & Hrun & Hagree).
  - reflexivity.
  - reflexivity.
  - intros k u Hu. vm_compute toLowerCase. by apply (no_carol k u).
  - vm_compute. reflexivity.
  - vm_compute. reflexivity.
  - reflexivity.
  - reflexivity.
  - intros tid t Ht. simpl in Ht.
    apply lookup_insert_Some in Ht as [[<- <-] | [_ Ht]]; [done|].
    by apply lookup_singleton_Some in Ht as [<- <-].
  - intros tid t Hin Ht. apply list_elem_of_singleton in Hin as ->.
    by injection Ht as <-.
  - exact store1_consistent.
  - exists s'. split; [by rewrite Hrun | exact Hagree].
Defined.


(** X23, witness: Carol is created with Alice's Task [report] in her
    list. *)
Lemma X23_postUser_leaves_former_assignee_stale_witness :
  exists s',
    (postUser (H := Reference.platform) Reference.carol_takes_report 3%N
       (session_of Reference.store0)).2 = s' /\
    s_users s' !! 1%N = Some Reference.alice /\
    ~ consistent (s_users s') (s_tasks s').
Proof.
  edestruct (X23_postUser_leaves_former_assignee_stale (H := Reference.platform)
               Reference.carol_takes_report 3%N (session_of Reference.store0)
               "Carol" "carol@x.com" [161%N] 161%N Reference.report
               1%N Reference.alice)
    as (s' & Hrun & Halice & _ & Hstale).
  - reflexivity.
  - reflexivity.
  - intros k u Hu. vm_compute toLowerCase. by apply (no_carol k u).
  - vm_compute. reflexivity.
  - vm_compute. reflexivity.
  - reflexivity.
  - reflexivity.
  - by apply list_elem_of_singleton.
  - reflexivity.
  - reflexivity.
  - reflexivity.
  - by apply list_elem_of_singleton.
  - exists s'. split; [exact Hrun|]. split; [exact Halice | exact Hstale].
Defined.
